(** * Verification of the event handler of [handler.py]

    The development embeds the Python module [handler.py] (the dispatcher
    [handler], the three validators and [error_response]) and proves the
    properties of its validation and normalisation contract.

    Python values are the values of a decoded JSON document: [None],
    booleans, integers, floats, strings, lists and dictionaries with string
    keys. Dictionaries are finite maps, integers are unbounded, floats are
    IEEE 754 binary64 numbers (the executable specification of the Standard
    Library), strings are sequences of Unicode code points, and the
    exceptions Python can raise are an explicit error monad. The keys of a
    dictionary are only ever compared for equality, and are given by their
    bytes.

    The handler reads three tables of the Unicode database of the
    interpreter: the whitespace class (of [str.strip] and of [\s] in [re])
    and the case mappings [str.lower] and [str.upper]. They are no part of
    the module, and are parameters of the development ([TextModel]); what
    is assumed about them, and only where a statement evaluates the handler
    on given ASCII text, is their value on ASCII text ([TextLaws]). *)

From Stdlib Require Import ZArith NArith Bool List Ascii String Lia.
From Stdlib Require Import Floats.SpecFloat.
From stdpp Require Import base option gmap strings.

Local Open Scope Z_scope.
Local Set Warnings "-register-all".

(** ** Python floats: IEEE 754 binary64 *)

Module PyFloat.

Definition prec : Z := 53.
Definition emax : Z := 1024.

Definition float := spec_float.

(** Nearest binary64 number to the integer [n], ties to even; overflows
    to an infinity. *)
Definition of_Z (n : Z) : float := binary_normalize prec emax n 0 false.

Definition mul : float -> float -> float := SFmul prec emax.
Definition sub : float -> float -> float := SFsub prec emax.
Definition leb : float -> float -> bool := SFleb.
Definition ltb : float -> float -> bool := SFltb.

(** Nearest binary64 number to the rational [(-1)^s * n / d], for
    [n >= 0] and [d > 0]: the quotient is computed with its remainder
    position and rounded once. *)
Definition of_ratio (s : bool) (n d : Z) : float :=
  match n with
  | Z0 => S754_zero s
  | _ =>
      let '(q, e, l) := SFdiv_core_binary prec emax n 0 d 0 in
      binary_round_aux prec emax s q e l
  end.

(** A float literal with [k] digits after the point, [n / 10^k]. *)
Definition of_decimal (n : Z) (k : Z) : float :=
  of_ratio (n <? 0) (Z.abs n) (10 ^ k).

(** Nearest integer to [n / d] for [n >= 0] and [d > 0], ties to even. *)
Definition div_half_even (n d : Z) : Z :=
  let q := n / d in
  let r := n mod d in
  match 2 * r ?= d with
  | Lt => q
  | Gt => q + 1
  | Eq => if Z.even q then q else q + 1
  end.

(** Nearest integer to [m * 2^e * 10^k] for [m >= 0], ties to even. *)
Definition scaled_half_even (m e k : Z) : Z :=
  if 0 <=? e then m * 2 ^ e * 10 ^ k
  else div_half_even (m * 10 ^ k) (2 ^ (- e)).

(** [round(x, ndigits)] for a float [x] and [0 <= ndigits], as CPython
    computes it: the exact value of [x] is rounded to [ndigits] decimal
    places, ties to even, and the decimal result is converted back to the
    nearest float. Infinities, NaN and zeros round to themselves. *)
Definition round (x : float) (ndigits : Z) : float :=
  match x with
  | S754_finite s m e =>
      of_ratio s (scaled_half_even (Zpos m) e ndigits) (10 ^ ndigits)
  | _ => x
  end.

End PyFloat.

(** ** Python strings *)

Module PyStr.

(** A character is a Unicode code point, a string a sequence of them. *)
Definition pychar : Type := N.
Definition pystr : Type := list pychar.

(** The string a literal of the source denotes: the literals of
    [handler.py] are ASCII. *)
Definition chr (a : ascii) : pychar := N_of_ascii a.

Fixpoint lit (s : string) : pystr :=
  match s with
  | EmptyString => []
  | String a s' => chr a :: lit s'
  end.

Definition lits (l : list string) : list pystr := List.map lit l.

Arguments lit : simpl never.

(** [s == t] *)
Fixpoint eqb (s t : pystr) : bool :=
  match s, t with
  | [], [] => true
  | c :: s', d :: t' => (c =? d)%N && eqb s' t'
  | _, _ => false
  end.

(** [s in l] for a list of strings *)
Definition mem (s : pystr) (l : list pystr) : bool := existsb (eqb s) l.

(** [s.lstrip()], [s.rstrip()] and [s.strip()], for the whitespace class
    [sp]. *)
Fixpoint lstrip (sp : pychar → bool) (s : pystr) : pystr :=
  match s with
  | [] => []
  | c :: s' => if sp c then lstrip sp s' else s
  end.

Fixpoint rstrip (sp : pychar → bool) (s : pystr) : pystr :=
  match s with
  | [] => []
  | c :: s' =>
      match rstrip sp s' with
      | [] => if sp c then [] else [c]
      | t => c :: t
      end
  end.

Definition strip (sp : pychar → bool) (s : pystr) : pystr :=
  rstrip sp (lstrip sp s).

(** *** The tables on ASCII text *)

Definition is_ascii (s : pystr) : bool := forallb (λ c, c <? 128)%N s.

(** The whitespace below 128: tab to carriage return, the four separators
    0x1c to 0x1f, and the space. *)
Definition ascii_isspace (c : pychar) : bool :=
  ((9 <=? c) && (c <=? 13) || (28 <=? c) && (c <=? 32))%N.

Definition ascii_lower_char (c : pychar) : pychar :=
  if ((65 <=? c) && (c <=? 90))%N then (c + 32)%N else c.

Definition ascii_upper_char (c : pychar) : pychar :=
  if ((97 <=? c) && (c <=? 122))%N then (c - 32)%N else c.

Definition ascii_lower (s : pystr) : pystr := List.map ascii_lower_char s.
Definition ascii_upper (s : pystr) : pystr := List.map ascii_upper_char s.

End PyStr.

Coercion PyStr.lit : string >-> PyStr.pystr.

(** ** The Unicode tables of the interpreter

    [py_isspace c] is [c.isspace()] for a character [c], the class that
    [str.strip] removes and that [\s] matches; [py_lower s] and [py_upper s]
    are [s.lower()] and [s.upper()]. The case mappings act on whole
    strings: in Unicode they can change the length of a string and depend
    on the neighbours of a character. *)
Class TextModel : Type := {
  py_isspace : PyStr.pychar → bool;
  py_lower : PyStr.pystr → PyStr.pystr;
  py_upper : PyStr.pystr → PyStr.pystr
}.

(** The tables on ASCII text. *)
Class TextLaws (T : TextModel) : Prop := {
  py_isspace_ascii c :
    (c < 128)%N → py_isspace c = PyStr.ascii_isspace c;
  py_lower_ascii s :
    PyStr.is_ascii s = true → py_lower s = PyStr.ascii_lower s;
  py_upper_ascii s :
    PyStr.is_ascii s = true → py_upper s = PyStr.ascii_upper s
}.

(** The tables cut down to ASCII, where every other character is no
    whitespace and has no case: the text model of the examples. *)
Definition ascii_text : TextModel :=
  {| py_isspace := PyStr.ascii_isspace;
     py_lower := PyStr.ascii_lower;
     py_upper := PyStr.ascii_upper |}.

(** ** Regular expressions, as far as [is_valid_email] needs them *)

Module Regex.

Inductive regex : Type :=
  | Never
  | Empty
  | Class (p : PyStr.pychar → bool)
  | Seq (r1 r2 : regex)
  | Alt (r1 r2 : regex)
  | Star (r : regex).

Definition Plus (r : regex) : regex := Seq r (Star r).
Definition Lit (c : PyStr.pychar) : regex := Class (N.eqb c).

Fixpoint nullable (r : regex) : bool :=
  match r with
  | Never => false
  | Empty => true
  | Class _ => false
  | Seq r1 r2 => nullable r1 && nullable r2
  | Alt r1 r2 => nullable r1 || nullable r2
  | Star _ => true
  end.

(** Brzozowski derivative: the words [w] such that [c :: w] matches. *)
Fixpoint deriv (c : PyStr.pychar) (r : regex) : regex :=
  match r with
  | Never => Never
  | Empty => Never
  | Class p => if p c then Empty else Never
  | Seq r1 r2 =>
      if nullable r1 then Alt (Seq (deriv c r1) r2) (deriv c r2)
      else Seq (deriv c r1) r2
  | Alt r1 r2 => Alt (deriv c r1) (deriv c r2)
  | Star r1 => Seq (deriv c r1) (Star r1)
  end.

(** The whole of [s] matches [r]. *)
Fixpoint fullmatch (r : regex) (s : PyStr.pystr) : bool :=
  match s with
  | [] => nullable r
  | c :: s' => fullmatch (deriv c r) s'
  end.

(** The language of a pattern. *)
Inductive matches : regex → PyStr.pystr → Prop :=
  | matches_empty : matches Empty []
  | matches_class p c : p c = true → matches (Class p) [c]
  | matches_seq r1 r2 s1 s2 :
      matches r1 s1 → matches r2 s2 → matches (Seq r1 r2) (s1 ++ s2)
  | matches_alt_l r1 r2 s : matches r1 s → matches (Alt r1 r2) s
  | matches_alt_r r1 r2 s : matches r2 s → matches (Alt r1 r2) s
  | matches_star_stop r : matches (Star r) []
  | matches_star_step r s1 s2 :
      matches r s1 → matches (Star r) s2 → matches (Star r) (s1 ++ s2).

(** The line feed. *)
Definition newline : PyStr.pychar := 10%N.

(** [s] without its last character, when that is a newline. *)
Fixpoint chop_newline (s : PyStr.pystr) : option PyStr.pystr :=
  match s with
  | [] => None
  | [c] => if (c =? newline)%N then Some [] else None
  | c :: s' => cons c <$> chop_newline s'
  end.

(** [re.match("^" r "$", s) is not None]: the pattern is anchored at the
    start, and [$] matches at the end of the string or just before a
    newline that ends the string. *)
Definition match_anchored (r : regex) (s : PyStr.pystr) : bool :=
  fullmatch r s ||
  match chop_newline s with
  | Some s' => fullmatch r s'
  | None => false
  end.

End Regex.

(** ** Python values, exceptions and the operations the handler uses *)

Inductive pyval : Type :=
  | VNone
  | VBool (b : bool)
  | VInt (n : Z)
  | VFloat (x : PyFloat.float)
  | VStr (s : PyStr.pystr)
  | VList (l : list pyval)
  | VDict (d : gmap string pyval).

Inductive exn : Type :=
  | KeyError
  | TypeError
  | AttributeError
  | OverflowError.

(** The outcome of running Python code: a value, or a raised exception. *)
Inductive exc (A : Type) : Type :=
  | Returns (a : A)
  | Raises (e : exn).
Arguments Returns {A} a.
Arguments Raises {A} e.

#[global] Instance exc_ret : MRet exc := fun A a => Returns a.
#[global] Instance exc_bind : MBind exc := fun A B f m =>
  match m with
  | Returns a => f a
  | Raises e => Raises e
  end.

#[global] Instance exc_fmap : FMap exc := fun A B f m =>
  match m with
  | Returns a => Returns (f a)
  | Raises e => Raises e
  end.

(** [a or b], where [b] is evaluated only when [a] is false. *)
Definition por (a : bool) (b : exc bool) : exc bool :=
  if a then Returns true else b.

(** [isinstance(v, int)]: [bool] is a subclass of [int]. *)
Definition isinstance_int (v : pyval) : bool :=
  match v with
  | VBool _ | VInt _ => true
  | _ => false
  end.

(** [isinstance(v, (int, float))] *)
Definition isinstance_int_float (v : pyval) : bool :=
  match v with
  | VBool _ | VInt _ | VFloat _ => true
  | _ => false
  end.

(** [isinstance(v, str)] *)
Definition isinstance_str (v : pyval) : bool :=
  match v with
  | VStr _ => true
  | _ => false
  end.

(** The integer a [bool] stands for. *)
Definition Z_of_bool (b : bool) : Z := if b then 1 else 0.

(** [v == s] for a string literal [s] *)
Definition eq_str (v : pyval) (s : string) : bool :=
  match v with
  | VStr t => PyStr.eqb t s
  | _ => false
  end.

(** [v <= k] for an integer literal [k] that a float holds exactly *)
Definition le_int (v : pyval) (k : Z) : exc bool :=
  match v with
  | VBool b => Returns (Z_of_bool b <=? k)
  | VInt n => Returns (n <=? k)
  | VFloat x => Returns (PyFloat.leb x (PyFloat.of_Z k))
  | _ => Raises TypeError
  end.

(** [v < k] for an integer literal [k] that a float holds exactly *)
Definition lt_int (v : pyval) (k : Z) : exc bool :=
  match v with
  | VBool b => Returns (Z_of_bool b <? k)
  | VInt n => Returns (n <? k)
  | VFloat x => Returns (PyFloat.ltb x (PyFloat.of_Z k))
  | _ => Raises TypeError
  end.

(** [float(v)] for a number. An [int] is rounded to the nearest float and
    raises [OverflowError] when that is out of range. The handler calls
    [float] on numbers only; other values are given [TypeError]. *)
Definition to_float (v : pyval) : exc PyFloat.float :=
  match v with
  | VBool b => Returns (PyFloat.of_Z (Z_of_bool b))
  | VInt n =>
      match PyFloat.of_Z n with
      | S754_infinity _ => Raises OverflowError
      | x => Returns x
      end
  | VFloat x => Returns x
  | _ => Raises TypeError
  end.

(** A method of [str] called on [v] *)
Definition str_method (f : PyStr.pystr → PyStr.pystr) (v : pyval)
    : exc PyStr.pystr :=
  match v with
  | VStr s => Returns (f s)
  | _ => Raises AttributeError
  end.

(** [k in d] *)
Definition contains (d : gmap string pyval) (k : string) : bool :=
  match d !! k with
  | Some _ => true
  | None => false
  end.

(** [d.get(k)] *)
Definition dict_get (d : gmap string pyval) (k : string) : pyval :=
  match d !! k with
  | Some v => v
  | None => VNone
  end.

(** [d[k]] *)
Definition getitem (d : gmap string pyval) (k : string) : exc pyval :=
  match d !! k with
  | Some v => Returns v
  | None => Raises KeyError
  end.

(** The truth value of a list: [if errors:] *)
Definition truthy {A} (l : list A) : bool :=
  match l with
  | [] => false
  | _ :: _ => true
  end.

(** [errors.append(e)] when [c] holds *)
Definition append_if (c : bool) (e : string) (errors : list string) : list string :=
  if c then errors ++ [e] else errors.

(** ** The handler *)

Record envelope : Type := Envelope {
  status : string;
  message : string;
  data : gmap string pyval;
  errors : list string
}.

Definition error_response (errors : list string) : envelope :=
  {| status := "error";
     message := "Validation failed";
     data := ∅;
     errors := errors |}.

(** The presence loop shared by the three validators:
    [for field in required_fields: if field not in event: errors.append(...)] *)
Definition check_missing (required_fields : list string)
    (event : gmap string pyval) (errors : list string) : list string :=
  fold_left
    (fun errors field =>
       append_if (negb (contains event field)) ("Missing field: " +:+ field) errors)
    required_fields errors.

(** The literal [0.02] *)
Definition fee_rate : PyFloat.float := PyFloat.of_decimal 2 2.

(** The character [@] and the full stop. *)
Definition at_sign : PyStr.pychar := 64%N.
Definition full_stop : PyStr.pychar := 46%N.

Section Handler.

Context {T : TextModel}.

(** [v.lower()], [v.upper()] and [v.strip()] *)
Definition str_lower : pyval → exc PyStr.pystr := str_method py_lower.
Definition str_upper : pyval → exc PyStr.pystr := str_method py_upper.
Definition str_strip : pyval → exc PyStr.pystr :=
  str_method (PyStr.strip py_isspace).

(** The pattern of [is_valid_email], [^[^@\s]+@[^@\s]+\.[^@\s]+$], between
    its anchors. *)
Definition email_char (c : PyStr.pychar) : bool :=
  negb ((c =? at_sign)%N || py_isspace c).

Definition email_pattern : Regex.regex :=
  Regex.Seq (Regex.Plus (Regex.Class email_char))
    (Regex.Seq (Regex.Lit at_sign)
       (Regex.Seq (Regex.Plus (Regex.Class email_char))
          (Regex.Seq (Regex.Lit full_stop)
             (Regex.Plus (Regex.Class email_char))))).

(** [re.match] raises [TypeError] on a value that is not a string. *)
Definition is_valid_email (email : pyval) : exc bool :=
  match email with
  | VStr s => Returns (Regex.match_anchored email_pattern s)
  | _ => Raises TypeError
  end.

Definition handle_user_signup (event : gmap string pyval) : exc envelope :=
  let errors := [] in
  let required_fields := ["user_id"; "email"; "plan"] in
  let errors := check_missing required_fields event errors in
  if truthy errors then Returns (error_response errors) else
  user_id ← getitem event "user_id";
  email ← getitem event "email";
  plan ← getitem event "plan";
  let errors := append_if (negb (isinstance_int user_id)) "user_id must be int" errors in
  c ← por (negb (isinstance_str email)) (negb <$> is_valid_email email);
  let errors := append_if c "Invalid email" errors in
  c ← por (negb (isinstance_str plan))
        (l ← str_lower plan;
         Returns (negb (PyStr.mem l (PyStr.lits ["free"; "pro"; "edu"]))));
  let errors := append_if c "Invalid plan" errors in
  if truthy errors then Returns (error_response errors) else
  email ← str_lower email;
  plan ← str_lower plan;
  Returns
    {| status := "ok";
       message := "Signup processed";
       data := {[ "user_id" := user_id;
                  "email" := VStr email;
                  "plan" := VStr plan;
                  "welcome_email_subject" :=
                    VStr (PyStr.lit "Welcome to the " ++ plan
                          ++ PyStr.lit " plan!") ]};
       errors := [] |}.

Definition handle_payment (event : gmap string pyval) : exc envelope :=
  let errors := [] in
  let required_fields := ["payment_id"; "user_id"; "amount"; "currency"] in
  let errors := check_missing required_fields event errors in
  if truthy errors then Returns (error_response errors) else
  payment_id ← getitem event "payment_id";
  user_id ← getitem event "user_id";
  amount ← getitem event "amount";
  currency ← getitem event "currency";
  let errors := append_if (negb (isinstance_str payment_id)) "payment_id must be string" errors in
  let errors := append_if (negb (isinstance_int user_id)) "user_id must be int" errors in
  c ← por (negb (isinstance_int_float amount)) (le_int amount 0);
  let errors := append_if c "amount must be positive number" errors in
  c ← por (negb (isinstance_str currency))
        (u ← str_upper currency;
         Returns (negb (PyStr.mem u (PyStr.lits ["BHD"; "USD"; "EUR"]))));
  let errors := append_if c "Invalid currency" errors in
  if truthy errors then Returns (error_response errors) else
  currency ← str_upper currency;
  amount ← to_float amount;
  let amount := PyFloat.round amount 3 in
  let fee := PyFloat.round (PyFloat.mul amount fee_rate) 3 in
  let net_amount := PyFloat.round (PyFloat.sub amount fee) 3 in
  Returns
    {| status := "ok";
       message := "Payment processed";
       data := {[ "payment_id" := payment_id;
                  "user_id" := user_id;
                  "amount" := VFloat amount;
                  "currency" := VStr currency;
                  "fee" := VFloat fee;
                  "net_amount" := VFloat net_amount ]};
       errors := [] |}.

Definition handle_file_upload (event : gmap string pyval) : exc envelope :=
  let errors := [] in
  let required_fields := ["file_name"; "size_bytes"; "bucket"; "uploader"] in
  let errors := check_missing required_fields event errors in
  if truthy errors then Returns (error_response errors) else
  file_name ← getitem event "file_name";
  size_bytes ← getitem event "size_bytes";
  bucket ← getitem event "bucket";
  uploader ← getitem event "uploader";
  let errors := append_if (negb (isinstance_str file_name)) "file_name must be string" errors in
  c ← por (negb (isinstance_int size_bytes)) (lt_int size_bytes 0);
  let errors := append_if c "size_bytes must be >= 0" errors in
  let errors := append_if (negb (isinstance_str bucket)) "bucket must be string" errors in
  c ← por (negb (isinstance_str uploader)) (negb <$> is_valid_email uploader);
  let errors := append_if c "Invalid uploader email" errors in
  if truthy errors then Returns (error_response errors) else
  file_name ← str_strip file_name;
  bucket ← str_lower bucket;
  uploader ← str_lower uploader;
  small ← lt_int size_bytes 1000000;
  storage_class ←
    (if small : bool then Returns "STANDARD"
     else
       medium ← lt_int size_bytes 50000000;
       if medium : bool then Returns "STANDARD_IA" else Returns "GLACIER");
  Returns
    {| status := "ok";
       message := "Upload processed";
       data := {[ "file_name" := VStr file_name;
                  "size_bytes" := size_bytes;
                  "bucket" := VStr bucket;
                  "uploader" := VStr uploader;
                  "storage_class" := VStr (PyStr.lit storage_class) ]};
       errors := [] |}.

Definition handler (event : pyval) (context : pyval) : exc envelope :=
  match event with
  | VDict event =>
      let event_type := dict_get event "type" in
      if eq_str event_type "USER_SIGNUP" then handle_user_signup event
      else if eq_str event_type "PAYMENT" then handle_payment event
      else if eq_str event_type "FILE_UPLOAD" then handle_file_upload event
      else Returns (error_response ["Unknown event type"])
  | _ => Returns (error_response ["Invalid JSON structure"])
  end.

End Handler.

(** ** Definitions used to state the properties *)

(** *** The presence phase *)

(** The errors of the presence phase as the specification words them: one
    message per absent field, in the order of the required fields. *)
Definition missing_errors (required_fields : list string)
    (event : gmap string pyval) : list string :=
  List.map (String.append "Missing field: ")
    (List.filter (λ field, negb (contains event field)) required_fields).

Definition signup_fields : list string := ["user_id"; "email"; "plan"].
Definition payment_fields : list string :=
  ["payment_id"; "user_id"; "amount"; "currency"].
Definition upload_fields : list string :=
  ["file_name"; "size_bytes"; "bucket"; "uploader"].

(** *** The conditions of the second phase that read no text

    Each [bad_*] is the condition under which the source appends the
    message of a check, as a total function of the value of the field. *)

Definition bad_amount (v : pyval) : bool :=
  match v with
  | VBool b => Z_of_bool b <=? 0
  | VInt n => n <=? 0
  | VFloat x => PyFloat.leb x (PyFloat.of_Z 0)
  | _ => true
  end.

Definition bad_size (v : pyval) : bool :=
  match v with
  | VBool b => Z_of_bool b <? 0
  | VInt n => n <? 0
  | _ => true
  end.

(** The integer held by a value that passes [isinstance(v, int)]. *)
Definition int_value (v : pyval) : option Z :=
  match v with
  | VBool b => Some (Z_of_bool b)
  | VInt n => Some n
  | _ => None
  end.

(** The storage class of a file of [n] bytes. *)
Definition storage_class_of (n : Z) : string :=
  if n <? 1000000 then "STANDARD"
  else if n <? 50000000 then "STANDARD_IA"
  else "GLACIER".

Definition known_types : list string := ["USER_SIGNUP"; "PAYMENT"; "FILE_UPLOAD"].

(** *** Shape of the returned envelope *)

Definition error_envelope (env : envelope) : Prop :=
  ∃ errs, errs ≠ [] ∧ env = error_response errs.

Definition success_envelope (env : envelope) : Prop :=
  status env = "ok" ∧ errors env = [] ∧ data env ≠ ∅.

(** The storage class in the data of a result, if any. *)
Definition storage_class_in (r : exc envelope) : option pyval :=
  match r with
  | Returns env => data env !! "storage_class"
  | Raises _ => None
  end.

(** The checks of the second phase: for each event type, the required
    fields in order, each with the message its check appends. *)
Definition type_checks : list (string * list (string * string)) :=
  [ ("USER_SIGNUP",
     [ ("user_id", "user_id must be int");
       ("email", "Invalid email");
       ("plan", "Invalid plan") ]);
    ("PAYMENT",
     [ ("payment_id", "payment_id must be string");
       ("user_id", "user_id must be int");
       ("amount", "amount must be positive number");
       ("currency", "Invalid currency") ]);
    ("FILE_UPLOAD",
     [ ("file_name", "file_name must be string");
       ("size_bytes", "size_bytes must be >= 0");
       ("bucket", "bucket must be string");
       ("uploader", "Invalid uploader email") ]) ].

(** The fields [handler] reads besides [type]: the required fields of the
    validator it dispatches to. *)
Definition fields_read (event : gmap string pyval) : list string :=
  let event_type := dict_get event "type" in
  if eq_str event_type "USER_SIGNUP" then signup_fields
  else if eq_str event_type "PAYMENT" then payment_fields
  else if eq_str event_type "FILE_UPLOAD" then upload_fields
  else [].

(** The error lists of [handler], each in the order its messages are
    appended: the two structural errors and, for each validator, the
    messages of the presence phase and those of the second phase. *)
Definition error_orders : list (list string) :=
  [ ["Invalid JSON structure"]; ["Unknown event type"] ]
  ++ List.map
       (λ tc : string * list (string * string),
          List.map (λ c, "Missing field: " +:+ fst c) (snd tc))
       type_checks
  ++ List.map
       (λ tc : string * list (string * string), List.map snd (snd tc))
       type_checks.

(** The sign bit of a float. *)
Definition is_negative (x : PyFloat.float) : bool :=
  match x with
  | S754_zero s | S754_infinity s | S754_finite s _ _ => s
  | S754_nan => false
  end.

(** *** Events used in the statements *)

Definition upload_of_size (size_bytes : Z) : pyval :=
  VDict {[ "type" := VStr "FILE_UPLOAD";
           "file_name" := VStr " report.pdf ";
           "size_bytes" := VInt size_bytes;
           "bucket" := VStr "Archive";
           "uploader" := VStr "Ops@Example.com" ]}.

Definition rejected_payment : pyval :=
  VDict {[ "type" := VStr "PAYMENT"; "payment_id" := VInt 123;
           "user_id" := VStr "x"; "amount" := VInt (-5);
           "currency" := VStr "XXX" ]}.

Definition accepted_payment : pyval :=
  VDict {[ "type" := VStr "PAYMENT"; "payment_id" := VStr "p1";
           "user_id" := VInt 1; "amount" := VInt 100;
           "currency" := VStr "usd" ]}.

Definition oversized_payment : pyval :=
  VDict {[ "type" := VStr "PAYMENT"; "payment_id" := VStr "p1";
           "user_id" := VInt 1; "amount" := VInt (10 ^ 400);
           "currency" := VStr "usd" ]}.

Definition happy_signup : pyval :=
  VDict {[ "type" := VStr "USER_SIGNUP"; "user_id" := VInt 1;
           "email" := VStr "A@B.COM"; "plan" := VStr "FREE" ]}.

Definition signup_by_bool : pyval :=
  VDict {[ "type" := VStr "USER_SIGNUP"; "user_id" := VBool true;
           "email" := VStr "a@b.com"; "plan" := VStr "pro" ]}.

Definition signup_with_null_id : gmap string pyval :=
  {[ "type" := VStr "USER_SIGNUP"; "user_id" := VNone;
     "email" := VStr "a@b.com"; "plan" := VStr "free" ]}.

Definition payment_of_amount (amount : pyval) : gmap string pyval :=
  {[ "type" := VStr "PAYMENT"; "payment_id" := VStr "p2";
     "user_id" := VInt 2; "amount" := amount; "currency" := VStr "EUR" ]}.

Definition upload_of_name (file_name : PyStr.pystr) : gmap string pyval :=
  {[ "type" := VStr "FILE_UPLOAD"; "file_name" := VStr file_name;
     "size_bytes" := VInt 0; "bucket" := VStr "Logs";
     "uploader" := VStr "x@y.z" ]}.

Section Outcomes.

Context {T : TextModel}.

(** *** The conditions of the second phase that read text

    The lemmas [email_check], [plan_check], [amount_check],
    [currency_check] and [size_check] relate the conditions to the guarded
    expressions of the validators. *)

Definition bad_email (v : pyval) : bool :=
  match v with
  | VStr s => negb (Regex.match_anchored email_pattern s)
  | _ => true
  end.

Definition bad_plan (v : pyval) : bool :=
  match v with
  | VStr s =>
      negb (PyStr.mem (py_lower s) (PyStr.lits ["free"; "pro"; "edu"]))
  | _ => true
  end.

Definition bad_currency (v : pyval) : bool :=
  match v with
  | VStr s =>
      negb (PyStr.mem (py_upper s) (PyStr.lits ["BHD"; "USD"; "EUR"]))
  | _ => true
  end.

(** *** The outcomes of the validators

    Each validator has three kinds of outcome: a required field is absent,
    a check of the second phase fails, or the event is accepted; a payment
    can also raise. The relations below list them, and every run of a
    validator is one of them. *)

Definition signup_errors (user_id email plan : pyval) : list string :=
  append_if (bad_plan plan) "Invalid plan"
    (append_if (bad_email email) "Invalid email"
       (append_if (negb (isinstance_int user_id)) "user_id must be int" [])).

Definition signup_ok (user_id : pyval) (email plan : PyStr.pystr) : envelope :=
  {| status := "ok";
     message := "Signup processed";
     data := {[ "user_id" := user_id;
                "email" := VStr (py_lower email);
                "plan" := VStr (py_lower plan);
                "welcome_email_subject" :=
                  VStr (PyStr.lit "Welcome to the " ++ py_lower plan
                        ++ PyStr.lit " plan!") ]};
     errors := [] |}.

Inductive signup_outcome (event : gmap string pyval) : exc envelope → Prop :=
  | signup_missing :
      missing_errors signup_fields event ≠ [] →
      signup_outcome event
        (Returns (error_response (missing_errors signup_fields event)))
  | signup_invalid user_id email plan :
      event !! "user_id" = Some user_id →
      event !! "email" = Some email →
      event !! "plan" = Some plan →
      signup_errors user_id email plan ≠ [] →
      signup_outcome event
        (Returns (error_response (signup_errors user_id email plan)))
  | signup_valid user_id email plan :
      event !! "user_id" = Some user_id →
      event !! "email" = Some (VStr email) →
      event !! "plan" = Some (VStr plan) →
      isinstance_int user_id = true →
      Regex.match_anchored email_pattern email = true →
      PyStr.mem (py_lower plan) (PyStr.lits ["free"; "pro"; "edu"]) = true →
      signup_outcome event (Returns (signup_ok user_id email plan)).

Definition payment_errors (payment_id user_id amount currency : pyval)
    : list string :=
  append_if (bad_currency currency) "Invalid currency"
    (append_if (bad_amount amount) "amount must be positive number"
       (append_if (negb (isinstance_int user_id)) "user_id must be int"
          (append_if (negb (isinstance_str payment_id))
             "payment_id must be string" []))).

Definition payment_ok (payment_id user_id : pyval) (amount : PyFloat.float)
    (currency : PyStr.pystr) : envelope :=
  let amount := PyFloat.round amount 3 in
  let fee := PyFloat.round (PyFloat.mul amount fee_rate) 3 in
  let net_amount := PyFloat.round (PyFloat.sub amount fee) 3 in
  {| status := "ok";
     message := "Payment processed";
     data := {[ "payment_id" := payment_id;
                "user_id" := user_id;
                "amount" := VFloat amount;
                "currency" := VStr (py_upper currency);
                "fee" := VFloat fee;
                "net_amount" := VFloat net_amount ]};
     errors := [] |}.

Inductive payment_outcome (event : gmap string pyval) : exc envelope → Prop :=
  | payment_missing :
      missing_errors payment_fields event ≠ [] →
      payment_outcome event
        (Returns (error_response (missing_errors payment_fields event)))
  | payment_invalid payment_id user_id amount currency :
      event !! "payment_id" = Some payment_id →
      event !! "user_id" = Some user_id →
      event !! "amount" = Some amount →
      event !! "currency" = Some currency →
      payment_errors payment_id user_id amount currency ≠ [] →
      payment_outcome event
        (Returns (error_response
                    (payment_errors payment_id user_id amount currency)))
  | payment_valid payment_id user_id amount currency x :
      event !! "payment_id" = Some payment_id →
      event !! "user_id" = Some user_id →
      event !! "amount" = Some amount →
      event !! "currency" = Some (VStr currency) →
      isinstance_str payment_id = true →
      isinstance_int user_id = true →
      bad_amount amount = false →
      PyStr.mem (py_upper currency) (PyStr.lits ["BHD"; "USD"; "EUR"]) = true →
      to_float amount = Returns x →
      payment_outcome event
        (Returns (payment_ok payment_id user_id x currency))
  | payment_overflow payment_id user_id n currency :
      event !! "payment_id" = Some payment_id →
      event !! "user_id" = Some user_id →
      event !! "amount" = Some (VInt n) →
      event !! "currency" = Some (VStr currency) →
      isinstance_str payment_id = true →
      isinstance_int user_id = true →
      0 < n →
      to_float (VInt n) = Raises OverflowError →
      PyStr.mem (py_upper currency) (PyStr.lits ["BHD"; "USD"; "EUR"]) = true →
      payment_outcome event (Raises OverflowError).

Definition upload_errors (file_name size_bytes bucket uploader : pyval)
    : list string :=
  append_if (bad_email uploader) "Invalid uploader email"
    (append_if (negb (isinstance_str bucket)) "bucket must be string"
       (append_if (bad_size size_bytes) "size_bytes must be >= 0"
          (append_if (negb (isinstance_str file_name))
             "file_name must be string" []))).

Definition upload_ok (file_name : PyStr.pystr) (size_bytes : pyval) (n : Z)
    (bucket uploader : PyStr.pystr) : envelope :=
  {| status := "ok";
     message := "Upload processed";
     data := {[ "file_name" := VStr (PyStr.strip py_isspace file_name);
                "size_bytes" := size_bytes;
                "bucket" := VStr (py_lower bucket);
                "uploader" := VStr (py_lower uploader);
                "storage_class" := VStr (storage_class_of n) ]};
     errors := [] |}.

Inductive upload_outcome (event : gmap string pyval) : exc envelope → Prop :=
  | upload_missing :
      missing_errors upload_fields event ≠ [] →
      upload_outcome event
        (Returns (error_response (missing_errors upload_fields event)))
  | upload_invalid file_name size_bytes bucket uploader :
      event !! "file_name" = Some file_name →
      event !! "size_bytes" = Some size_bytes →
      event !! "bucket" = Some bucket →
      event !! "uploader" = Some uploader →
      upload_errors file_name size_bytes bucket uploader ≠ [] →
      upload_outcome event
        (Returns (error_response
                    (upload_errors file_name size_bytes bucket uploader)))
  | upload_valid file_name size_bytes n bucket uploader :
      event !! "file_name" = Some (VStr file_name) →
      event !! "size_bytes" = Some size_bytes →
      event !! "bucket" = Some (VStr bucket) →
      event !! "uploader" = Some (VStr uploader) →
      int_value size_bytes = Some n →
      0 <= n →
      Regex.match_anchored email_pattern uploader = true →
      upload_outcome event
        (Returns (upload_ok file_name size_bytes n bucket uploader)).

(** *** The dispatcher *)

(** Every run of [handler] on a mapping is one of five cases. *)
Inductive dispatch_outcome (d : gmap string pyval) : exc envelope → Prop :=
  | dispatch_unknown :
      (∀ t : string, t ∈ known_types → d !! "type" ≠ Some (VStr t)) →
      dispatch_outcome d (Returns (error_response ["Unknown event type"]))
  | dispatch_signup r :
      d !! "type" = Some (VStr "USER_SIGNUP") →
      signup_outcome d r → dispatch_outcome d r
  | dispatch_payment r :
      d !! "type" = Some (VStr "PAYMENT") →
      payment_outcome d r → dispatch_outcome d r
  | dispatch_upload r :
      d !! "type" = Some (VStr "FILE_UPLOAD") →
      upload_outcome d r → dispatch_outcome d r.

(** *** Where the errors of an envelope come from *)

Inductive errors_origin (d : gmap string pyval) : list string → Prop :=
  | origin_none : errors_origin d []
  | origin_unknown : errors_origin d ["Unknown event type"]
  | origin_missing fields : errors_origin d (missing_errors fields d)
  | origin_signup user_id email plan :
      d !! "type" = Some (VStr "USER_SIGNUP") →
      d !! "user_id" = Some user_id →
      d !! "email" = Some email →
      d !! "plan" = Some plan →
      errors_origin d (signup_errors user_id email plan)
  | origin_payment payment_id user_id amount currency :
      d !! "type" = Some (VStr "PAYMENT") →
      d !! "payment_id" = Some payment_id →
      d !! "user_id" = Some user_id →
      d !! "amount" = Some amount →
      d !! "currency" = Some currency →
      errors_origin d (payment_errors payment_id user_id amount currency)
  | origin_upload file_name size_bytes bucket uploader :
      d !! "type" = Some (VStr "FILE_UPLOAD") →
      d !! "file_name" = Some file_name →
      d !! "size_bytes" = Some size_bytes →
      d !! "bucket" = Some bucket →
      d !! "uploader" = Some uploader →
      errors_origin d (upload_errors file_name size_bytes bucket uploader).

(** *** Text *)

(** A part of an address: not empty, without [@] and without whitespace. *)
Definition email_part (s : PyStr.pystr) : Prop :=
  s ≠ [] ∧ forallb email_char s = true.

(** [s] is empty or starts with a character that is no whitespace. *)
Definition clean_start (s : PyStr.pystr) : bool :=
  match s with
  | [] => true
  | c :: _ => negb (py_isspace c)
  end.

(** [s] is empty or ends with a character that is no whitespace. *)
Fixpoint clean_end (s : PyStr.pystr) : bool :=
  match s with
  | [] => true
  | [c] => negb (py_isspace c)
  | _ :: s' => clean_end s'
  end.

End Outcomes.

(** Two patterns of the same shape whose character classes agree on the
    characters that satisfy [P]. *)
Inductive similar (P : PyStr.pychar → Prop) : Regex.regex → Regex.regex → Prop :=
  | similar_never : similar P Regex.Never Regex.Never
  | similar_empty : similar P Regex.Empty Regex.Empty
  | similar_class p q :
      (∀ c, P c → p c = q c) → similar P (Regex.Class p) (Regex.Class q)
  | similar_seq r1 r2 r1' r2' :
      similar P r1 r1' → similar P r2 r2' →
      similar P (Regex.Seq r1 r2) (Regex.Seq r1' r2')
  | similar_alt r1 r2 r1' r2' :
      similar P r1 r1' → similar P r2 r2' →
      similar P (Regex.Alt r1 r2) (Regex.Alt r1' r2')
  | similar_star r r' :
      similar P r r' → similar P (Regex.Star r) (Regex.Star r').

(** ** The matcher decides membership in the language of the pattern *)

Lemma append_empty_inv {A} (s1 s2 : list A) :
  s1 ++ s2 = [] → s1 = [] ∧ s2 = [].
Proof. destruct s1; simpl; [done | discriminate]. Qed.

Lemma nullable_matches r : Regex.nullable r = true ↔ Regex.matches r [].
Proof.
  split.
  - induction r as [| |p|r1 IH1 r2 IH2|r1 IH1 r2 IH2|r IH]; simpl; intros H.
    + discriminate.
    + constructor.
    + discriminate.
    + apply andb_true_iff in H as [H1 H2].
      apply (Regex.matches_seq r1 r2 [] []); auto.
    + apply orb_true_iff in H as [H|H].
      * apply Regex.matches_alt_l; auto.
      * apply Regex.matches_alt_r; auto.
    + constructor.
  - remember (@nil PyStr.pychar) as w eqn:Hw. intros H.
    induction H as [|p c Hc|r1 r2 s1 s2 _ IH1 _ IH2|r1 r2 s _ IH|r1 r2 s _ IH
                   |r|r s1 s2 _ _ _ _]; simpl; try done.
    + apply append_empty_inv in Hw as [-> ->]. by rewrite IH1, IH2.
    + by rewrite IH.
    + rewrite IH by done. apply orb_true_r.
Qed.

Lemma deriv_sound c r s :
  Regex.matches (Regex.deriv c r) s → Regex.matches r (c :: s).
Proof.
  revert s.
  induction r as [| |p|r1 IH1 r2 IH2|r1 IH1 r2 IH2|r IH]; simpl; intros s H.
  - inversion H.
  - inversion H.
  - destruct (p c) eqn:Hp; inversion H; subst. by constructor.
  - destruct (Regex.nullable r1) eqn:Hn.
    + inversion H as [| | | ? ? ? H'| ? ? ? H'| |]; subst.
      * inversion H' as [| |? ? s1 s2 H1 H2| | | |]; subst.
        apply (Regex.matches_seq r1 r2 (c :: s1) s2); auto.
      * apply (Regex.matches_seq r1 r2 [] (c :: s)); auto.
        by apply nullable_matches.
    + inversion H as [| |? ? s1 s2 H1 H2| | | |]; subst.
      apply (Regex.matches_seq r1 r2 (c :: s1) s2); auto.
  - inversion H; subst.
    + apply Regex.matches_alt_l; auto.
    + apply Regex.matches_alt_r; auto.
  - inversion H as [| |? ? s1 s2 H1 H2| | | |]; subst.
    apply (Regex.matches_star_step r (c :: s1) s2); auto.
Qed.

Lemma deriv_complete c r s :
  Regex.matches r (c :: s) → Regex.matches (Regex.deriv c r) s.
Proof.
  remember (c :: s) as w eqn:Hw. intros H. revert s Hw.
  induction H as [|p c' Hc|r1 r2 s1 s2 H1 IH1 H2 IH2|r1 r2 s' _ IH|r1 r2 s' _ IH
                 |r|r s1 s2 H1 IH1 H2 IH2]; intros s Hw; simpl.
  - discriminate.
  - injection Hw as -> <-. rewrite Hc. constructor.
  - destruct s1 as [|c1 s1]; simpl in Hw.
    + subst s2. apply nullable_matches in H1. rewrite H1.
      apply Regex.matches_alt_r. by apply IH2.
    + injection Hw as -> <-.
      assert (Regex.matches (Regex.Seq (Regex.deriv c r1) r2) (s1 ++ s2))
        by (constructor; auto).
      destruct (Regex.nullable r1); [by apply Regex.matches_alt_l | done].
  - apply Regex.matches_alt_l. by apply IH.
  - apply Regex.matches_alt_r. by apply IH.
  - discriminate.
  - destruct s1 as [|c1 s1]; simpl in Hw.
    + by apply IH2.
    + injection Hw as -> <-. constructor; auto.
Qed.

(** [fullmatch] accepts exactly the words of the language of the pattern. *)
Lemma fullmatch_matches r s :
  Regex.fullmatch r s = true ↔ Regex.matches r s.
Proof.
  revert r. induction s as [|c s IH]; intros r; simpl.
  - apply nullable_matches.
  - rewrite IH. split; [apply deriv_sound | apply deriv_complete].
Qed.

Lemma chop_newline_cons c c2 s :
  Regex.chop_newline (c :: c2 :: s) = cons c <$> Regex.chop_newline (c2 :: s).
Proof. reflexivity. Qed.

Lemma chop_newline_Some s s' :
  Regex.chop_newline s = Some s' ↔ s = s' ++ [Regex.newline].
Proof.
  revert s'. induction s as [|c s IH]; intros s'.
  - split; [discriminate | by destruct s'].
  - destruct s as [|c2 s].
    + cbn [Regex.chop_newline]. destruct (N.eqb_spec c Regex.newline) as [->|Hc].
      * split; [by intros [= <-] | destruct s' as [|? [|]]; by intros [=]].
      * split; [discriminate | destruct s' as [|? [|]]; intros [=]; congruence].
    + rewrite chop_newline_cons.
      destruct s' as [|c' s'].
      * split; [|intros [=]].
        destruct (Regex.chop_newline (c2 :: s)); intros [=].
      * change ((c' :: s') ++ [Regex.newline])
          with (c' :: (s' ++ [Regex.newline])).
        split.
        -- destruct (Regex.chop_newline (c2 :: s)) as [t|] eqn:E;
             [|intros [=]].
           intros [= -> ->]. f_equal. by apply IH.
        -- intros [= -> Hs]. apply IH in Hs. by rewrite Hs.
Qed.

Lemma matches_seq_inv r1 r2 s :
  Regex.matches (Regex.Seq r1 r2) s
  ↔ ∃ s1 s2, s = s1 ++ s2 ∧ Regex.matches r1 s1 ∧ Regex.matches r2 s2.
Proof.
  split.
  - inversion 1; subst. eauto.
  - intros (s1 & s2 & -> & H1 & H2). by constructor.
Qed.

Lemma matches_lit c s : Regex.matches (Regex.Lit c) s ↔ s = [c].
Proof.
  unfold Regex.Lit. split.
  - inversion 1 as [|p c' Hc| | | | |]; subst.
    by apply N.eqb_eq in Hc as ->.
  - intros ->. constructor. apply N.eqb_refl.
Qed.

Lemma matches_star_class p s :
  Regex.matches (Regex.Star (Regex.Class p)) s ↔ forallb p s = true.
Proof.
  split.
  - remember (Regex.Star (Regex.Class p)) as r eqn:Hr. intros H.
    induction H as [| | | | | |r s1 s2 H1 _ _ IH2]; try discriminate.
    + reflexivity.
    + injection Hr as ->. inversion H1; subst. simpl.
      apply andb_true_iff. auto.
  - induction s as [|c s IH]; simpl; intros H.
    + constructor.
    + apply andb_true_iff in H as [Hc Hs].
      apply (Regex.matches_star_step _ [c] s); [by constructor|auto].
Qed.

Lemma matches_plus_class p s :
  Regex.matches (Regex.Plus (Regex.Class p)) s
  ↔ s ≠ [] ∧ forallb p s = true.
Proof.
  unfold Regex.Plus. rewrite matches_seq_inv. split.
  - intros (s1 & s2 & -> & H1 & H2). inversion H1; subst.
    apply matches_star_class in H2.
    split; [done|]. simpl. apply andb_true_iff. auto.
  - intros [Hne H]. destruct s as [|c s]; [done|]. simpl in H.
    apply andb_true_iff in H as [Hc Hs].
    exists [c], s. split_and!; [done|by constructor|].
    by apply matches_star_class.
Qed.

(** *** Patterns whose classes agree on the characters of a string *)

Lemma similar_nullable P r r' :
  similar P r r' → Regex.nullable r = Regex.nullable r'.
Proof. induction 1; simpl; congruence. Qed.

Lemma similar_deriv P c r r' :
  P c → similar P r r' → similar P (Regex.deriv c r) (Regex.deriv c r').
Proof.
  intros Hc. induction 1 as [| |p q Hpq|r1 r2 r1' r2' H1 IH1 H2 IH2
                            |r1 r2 r1' r2' H1 IH1 H2 IH2|r r' H IH]; simpl.
  - constructor.
  - constructor.
  - rewrite (Hpq c Hc). destruct (q c); constructor.
  - rewrite (similar_nullable _ _ _ H1).
    destruct (Regex.nullable r1'); repeat constructor; auto.
  - constructor; auto.
  - repeat constructor; auto.
Qed.

Lemma similar_fullmatch P r r' s :
  Forall P s → similar P r r' → Regex.fullmatch r s = Regex.fullmatch r' s.
Proof.
  intros Hs. revert r r'.
  induction Hs as [|c s Hc Hs IH]; intros r r' H; simpl.
  - by eapply similar_nullable.
  - apply IH. by apply similar_deriv.
Qed.

Lemma similar_match_anchored P r r' s :
  Forall P s → similar P r r' →
  Regex.match_anchored r s = Regex.match_anchored r' s.
Proof.
  intros Hs H. unfold Regex.match_anchored.
  rewrite (similar_fullmatch P r r' s) by done.
  destruct (Regex.chop_newline s) as [s'|] eqn:E; [|done].
  apply chop_newline_Some in E as ->. apply Forall_app in Hs as [Hs _].
  by rewrite (similar_fullmatch P r r' s').
Qed.

(** ** Text *)

Lemma eqb_eq s t : PyStr.eqb s t = true ↔ s = t.
Proof.
  revert t. induction s as [|c s IH]; intros [|d t]; simpl;
    try (split; [discriminate | done]); [done|].
  rewrite andb_true_iff, N.eqb_eq, IH. split; [by intros [-> ->] | by intros [= -> ->]].
Qed.

Lemma mem_elem_of s l : PyStr.mem s l = true ↔ s ∈ l.
Proof.
  unfold PyStr.mem. rewrite existsb_exists, list_elem_of_In. split.
  - by intros (x & Hx & ->%eqb_eq).
  - intros H. exists s. split; [done | by apply eqb_eq].
Qed.

Lemma lit_inj s t : PyStr.lit s = PyStr.lit t → s = t.
Proof.
  revert t. induction s as [|a s IH]; intros [|b t]; simpl; try done.
  intros [= Hab Hst]. f_equal; [|by apply IH].
  unfold PyStr.chr in Hab.
  by rewrite <- (ascii_N_embedding a), <- (ascii_N_embedding b), Hab.
Qed.

Lemma is_ascii_Forall s :
  PyStr.is_ascii s = true ↔ Forall (λ c, (c < 128)%N) s.
Proof.
  unfold PyStr.is_ascii. rewrite forallb_forall, Forall_forall.
  split; intros H c Hc.
  - apply N.ltb_lt, H. by apply list_elem_of_In.
  - apply N.ltb_lt, H. by apply list_elem_of_In.
Qed.

Lemma lstrip_ext sp sp' s :
  Forall (λ c, sp c = sp' c) s → PyStr.lstrip sp s = PyStr.lstrip sp' s.
Proof. induction 1 as [|c s Hc _ IH]; simpl; [done|]. by rewrite Hc, IH. Qed.

Lemma rstrip_ext sp sp' s :
  Forall (λ c, sp c = sp' c) s → PyStr.rstrip sp s = PyStr.rstrip sp' s.
Proof. induction 1 as [|c s Hc _ IH]; simpl; [done|]. by rewrite Hc, IH. Qed.

Lemma lstrip_suffix sp s : PyStr.lstrip sp s `suffix_of` s.
Proof.
  induction s as [|c s IH]; simpl; [done|].
  destruct (sp c); [by apply suffix_cons_r | done].
Qed.

Lemma strip_ext sp sp' s :
  Forall (λ c, sp c = sp' c) s → PyStr.strip sp s = PyStr.strip sp' s.
Proof.
  intros H. unfold PyStr.strip. rewrite <- (lstrip_ext sp sp' s H).
  apply rstrip_ext. destruct (lstrip_suffix sp s) as [k Hk].
  rewrite Hk in H. by apply Forall_app in H as [_ H].
Qed.

(** The ASCII tables are a text model. *)
Lemma ascii_text_laws : TextLaws ascii_text.
Proof. by split. Qed.

(** ** Rounding to decimal places is to nearest, ties to even *)

Lemma div_half_even_nearest n d :
  0 < d →
  let q := PyFloat.div_half_even n d in
  2 * Z.abs (n - q * d) <= d ∧
  (2 * Z.abs (n - q * d) = d → Z.even q = true).
Proof.
  intros Hd. unfold PyFloat.div_half_even.
  pose proof (Z.div_mod n d ltac:(lia)) as Hn.
  pose proof (Z.mod_pos_bound n d Hd) as Hr.
  destruct (Z.compare_spec (2 * (n mod d)) d) as [He|Hl|Hg]; cbv zeta.
  - destruct (Z.even (n / d)) eqn:Hq.
    + split; [nia | done].
    + split; [nia|]. intros _.
      by rewrite Z.add_1_r, Z.even_succ, <- Z.negb_even, Hq.
  - split; nia.
  - split; nia.
Qed.

(** *** The model on known values of Python *)

Example round_tie_to_even_below :
  PyFloat.round (PyFloat.of_decimal 625 4) 3 = PyFloat.of_decimal 62 3.
Proof. reflexivity. Qed.

Example round_tie_to_even_above :
  PyFloat.round (PyFloat.of_decimal 1875 4) 3 = PyFloat.of_decimal 188 3.
Proof. reflexivity. Qed.

Example round_inexact_literal :
  PyFloat.round (PyFloat.of_decimal 2675 3) 2 = PyFloat.of_decimal 267 2.
Proof. reflexivity. Qed.

Example round_keeps_sign_of_zero :
  PyFloat.round (PyFloat.of_decimal (-1) 4) 3 = S754_zero true.
Proof. reflexivity. Qed.

Example fee_rate_bits :
  fee_rate = S754_finite false 5764607523034235 (-58).
Proof. reflexivity. Qed.

Example to_float_largest :
  to_float (VInt (2 ^ 1024 - 2 ^ 970 - 1))
  = Returns (S754_finite false 9007199254740991 971).
Proof. reflexivity. Qed.

Example to_float_overflow :
  to_float (VInt (2 ^ 1024 - 2 ^ 970)) = Raises OverflowError.
Proof. reflexivity. Qed.

(** ** Facts about the primitive operations and the presence phase *)

Lemma contains_Some (d : gmap string pyval) k v :
  d !! k = Some v → contains d k = true.
Proof. unfold contains. intros ->. reflexivity. Qed.

Lemma contains_None (d : gmap string pyval) k :
  d !! k = None → contains d k = false.
Proof. unfold contains. intros ->. reflexivity. Qed.

Lemma contains_true (d : gmap string pyval) k :
  contains d k = true → ∃ v, d !! k = Some v.
Proof. unfold contains. destruct (d !! k); [eauto | discriminate]. Qed.

Lemma contains_false (d : gmap string pyval) k :
  contains d k = false → d !! k = None.
Proof. unfold contains. destruct (d !! k); [discriminate | reflexivity]. Qed.

Lemma getitem_Some (d : gmap string pyval) k v :
  d !! k = Some v → getitem d k = Returns v.
Proof. unfold getitem. intros ->. reflexivity. Qed.

Lemma truthy_false {A} (l : list A) : truthy l = false ↔ l = [].
Proof. destruct l; simpl; split; congruence. Qed.

Lemma truthy_true {A} (l : list A) : truthy l = true ↔ l ≠ [].
Proof. destruct l; simpl; split; congruence. Qed.

Lemma truthy_append_if c e l :
  truthy (append_if c e l) = c || truthy l.
Proof. destruct c, l; reflexivity. Qed.

Lemma elem_of_append_if x c e l :
  x ∈ append_if c e l ↔ x ∈ l ∨ (c = true ∧ x = e).
Proof.
  unfold append_if. destruct c.
  - rewrite elem_of_app, list_elem_of_singleton. intuition.
  - intuition discriminate.
Qed.

Lemma check_missing_spec required_fields event errors :
  check_missing required_fields event errors
  = errors ++ missing_errors required_fields event.
Proof.
  unfold check_missing, missing_errors.
  revert errors. induction required_fields as [|f fs IH]; intros errors; simpl.
  - by rewrite app_nil_r.
  - rewrite IH. destruct (contains event f); simpl; [done|].
    by rewrite <- app_assoc.
Qed.

Lemma missing_errors_nil required_fields event :
  missing_errors required_fields event = []
  ↔ Forall (λ f, contains event f = true) required_fields.
Proof.
  unfold missing_errors.
  induction required_fields as [|f fs IH]; simpl.
  - split; [constructor | done].
  - destruct (contains event f) eqn:E; simpl.
    + rewrite IH. split; [by constructor | by inversion 1].
    + split; [done | inversion 1; congruence].
Qed.

Lemma elem_of_missing_errors x required_fields event :
  x ∈ missing_errors required_fields event
  ↔ ∃ f, x = "Missing field: " +:+ f ∧ f ∈ required_fields ∧ event !! f = None.
Proof.
  unfold missing_errors.
  rewrite list_elem_of_In, in_map_iff. split.
  - intros (f & <- & Hf). apply filter_In in Hf as [Hf Hc].
    exists f. rewrite list_elem_of_In. split_and!; [done..|].
    apply contains_false. by destruct (contains event f).
  - intros (f & -> & Hf & Hn). exists f. split; [done|].
    apply filter_In. rewrite <- list_elem_of_In.
    by rewrite (contains_None _ _ Hn).
Qed.

Lemma amount_check v :
  por (negb (isinstance_int_float v)) (le_int v 0) = Returns (bad_amount v).
Proof. by destruct v. Qed.

Lemma size_check v :
  por (negb (isinstance_int v)) (lt_int v 0) = Returns (bad_size v).
Proof. by destruct v. Qed.

Lemma isinstance_str_true v : isinstance_str v = true ↔ ∃ s, v = VStr s.
Proof. destruct v; simpl; split; try done; try (by intros [? ?]); eauto. Qed.

Lemma bad_size_false v :
  bad_size v = false ↔ ∃ n, int_value v = Some n ∧ 0 <= n.
Proof.
  destruct v as [|b|n| | | |]; simpl; try (split; [done | by intros (? & ? & ?)]).
  - split; [|by destruct b]. intros _. exists (Z_of_bool b). by destruct b.
  - rewrite Z.ltb_ge. split; [eauto | by intros (? & [= ->] & ?)].
Qed.

Lemma lt_int_int_value v n k :
  int_value v = Some n → lt_int v k = Returns (n <? k).
Proof. destruct v; simpl; congruence. Qed.

Lemma to_float_cases v :
  bad_amount v = false →
  (∃ x, to_float v = Returns x)
  ∨ (∃ n, v = VInt n ∧ 0 < n ∧ to_float v = Raises OverflowError).
Proof.
  destruct v as [| |n| | | |]; simpl; try done; eauto.
  intros Hn%Z.leb_gt. destruct (PyFloat.of_Z n); eauto 6.
Qed.

(** ** Proof steps shared by the validators *)

(** Leaves the presence phase of a validator: either a field is absent, or
    every required field has a value. *)
Ltac presence_phase Hm :=
  cbv zeta; rewrite check_missing_spec, app_nil_l;
  match goal with
  | |- context [truthy (missing_errors ?fs ?ev)] =>
      destruct (truthy (missing_errors fs ev)) eqn:Hm;
      [ apply truthy_true in Hm
      | apply truthy_false in Hm; rewrite ?Hm;
        apply missing_errors_nil in Hm;
        repeat (apply Forall_cons in Hm as [[? ?]%contains_true Hm]);
        clear Hm ]
  end.

Ltac read_fields :=
  repeat match goal with
  | H : ?ev !! ?k = Some ?v |- context [getitem ?ev ?k] =>
      rewrite (getitem_Some ev k v H)
  end;
  cbn [mbind exc_bind].

(** ** The dispatcher reads [type] *)

Lemma eq_str_true v (s : string) : eq_str v s = true ↔ v = VStr s.
Proof.
  destruct v; simpl; try (split; [done | discriminate]).
  rewrite eqb_eq. split; congruence.
Qed.

Lemma dict_get_str (d : gmap string pyval) k s :
  dict_get d k = VStr s ↔ d !! k = Some (VStr s).
Proof. unfold dict_get. destruct (d !! k); split; congruence. Qed.

Lemma event_type_is (d : gmap string pyval) (s : string) :
  eq_str (dict_get d "type") s = true ↔ d !! "type" = Some (VStr s).
Proof. by rewrite eq_str_true, dict_get_str. Qed.

Lemma event_type_is_not (d : gmap string pyval) (s : string) :
  eq_str (dict_get d "type") s = false ↔ d !! "type" ≠ Some (VStr s).
Proof. rewrite <- event_type_is. by destruct (eq_str _ _). Qed.

Lemma error_response_envelope errs :
  errs ≠ [] → error_envelope (error_response errs).
Proof. intros H. by exists errs. Qed.

Lemma no_missing_errors fields (event : gmap string pyval) :
  Forall (λ f, is_Some (event !! f)) fields →
  missing_errors fields event = [].
Proof.
  intros H. apply missing_errors_nil.
  eapply Forall_impl; [exact H|]. intros f [v Hv]. by eapply contains_Some.
Qed.

Ltac all_present :=
  apply no_missing_errors; repeat constructor; by eexists.

Lemma missing_field_message_inj f g :
  "Missing field: " +:+ f = "Missing field: " +:+ g → f = g.
Proof. intros H. by simplify_eq/=. Qed.

(** ** Integers that a float holds exactly *)

Lemma digits2_pos_shift m k :
  Zpos (digits2_pos (Pos.iter xO m k)) = Zpos (digits2_pos m) + Zpos k.
Proof.
  induction k as [|k IH] using Pos.peano_ind.
  - simpl. lia.
  - rewrite Pos.iter_succ. simpl. lia.
Qed.

Lemma digits2_pos_lower m : 2 ^ (Zpos (digits2_pos m) - 1) <= Zpos m.
Proof.
  induction m as [m IH|m IH|]; simpl digits2_pos.
  - rewrite Pos2Z.inj_succ.
    replace (Z.succ (Zpos (digits2_pos m)) - 1)
      with (Z.succ (Zpos (digits2_pos m) - 1)) by lia.
    rewrite Z.pow_succ_r by lia. lia.
  - rewrite Pos2Z.inj_succ.
    replace (Z.succ (Zpos (digits2_pos m)) - 1)
      with (Z.succ (Zpos (digits2_pos m) - 1)) by lia.
    rewrite Z.pow_succ_r by lia. lia.
  - done.
Qed.

Lemma binary_round_aux_exact s m e :
  Zpos (digits2_pos m) = 53 →
  -1074 <= e <= 971 →
  binary_round_aux 53 1024 s (Zpos m) e loc_Exact = S754_finite s m e.
Proof.
  intros Hd He.
  assert (fexp 53 1024 (Zdigits2 (Zpos m) + e) - e = 0) as Hs.
  { unfold fexp, emin, Zdigits2. lia. }
  unfold binary_round_aux, shr_fexp.
  cbn [shr_record_of_loc]. rewrite Hs.
  cbn [shr shr_m loc_of_shr_record round_nearest_even shr_record_of_loc].
  rewrite Hs. cbn [shr shr_m].
  by rewrite (proj2 (Z.leb_le e (1024 - 53))) by lia.
Qed.

Lemma of_Z_small n :
  0 < n < 2 ^ 53 → ∃ m e, PyFloat.of_Z n = S754_finite false m e.
Proof.
  intros [Hpos Hlt]. destruct n as [|m|m]; try lia.
  pose proof (digits2_pos_lower m) as Hlow.
  assert (Zpos (digits2_pos m) <= 53) as Hd.
  { destruct (Z_le_gt_dec (Zpos (digits2_pos m)) 53) as [|Hgt]; [done|].
    assert (2 ^ 53 <= 2 ^ (Zpos (digits2_pos m) - 1))
      by (apply Z.pow_le_mono_r; lia).
    lia. }
  unfold PyFloat.of_Z, PyFloat.prec, PyFloat.emax, binary_normalize,
    binary_round, shl_align.
  assert (fexp 53 1024 (Zpos (digits2_pos m) + 0) = Zpos (digits2_pos m) - 53)
    as -> by (unfold fexp, emin; lia).
  destruct (Zpos (digits2_pos m) - 53 - 0) as [|k|k] eqn:Hk; try lia.
  - eexists _, _. apply binary_round_aux_exact; lia.
  - eexists _, _. apply binary_round_aux_exact; [|lia].
    rewrite digits2_pos_shift. lia.
Qed.

Lemma to_float_small n : 0 < n < 2 ^ 53 → ∃ x, to_float (VInt n) = Returns x.
Proof.
  intros H. destruct (of_Z_small n H) as (m & e & Hx).
  simpl. rewrite Hx. eauto.
Qed.

(** ** The sign of a rounded float *)

Lemma binary_round_aux_sign p emax m e l :
  is_negative (binary_round_aux p emax false m e l) = false.
Proof.
  unfold binary_round_aux.
  destruct (shr_fexp p emax m e l) as [mrs e'].
  destruct (shr_fexp p emax _ e' loc_Exact) as [mrs' e''].
  destruct (shr_m mrs'); [done| |done].
  by destruct (e'' <=? emax - p).
Qed.

Lemma of_ratio_sign n d : is_negative (PyFloat.of_ratio false n d) = false.
Proof.
  unfold PyFloat.of_ratio.
  destruct n; [done|..];
    destruct (SFdiv_core_binary _ _ _ _ _ _) as [[q e] l];
    apply binary_round_aux_sign.
Qed.

Lemma round_sign x k :
  is_negative x = false → is_negative (PyFloat.round x k) = false.
Proof.
  destruct x as [| | |s m e]; simpl; try done.
  intros ->. apply of_ratio_sign.
Qed.

Lemma mul_sign x y :
  is_negative x = false → is_negative y = false →
  is_negative (PyFloat.mul x y) = false.
Proof.
  destruct x, y; simpl; intros Hx Hy; subst; try done.
  apply binary_round_aux_sign.
Qed.

Lemma of_Z_sign n : 0 <= n → is_negative (PyFloat.of_Z n) = false.
Proof.
  destruct n as [|m|m]; [done| |lia]. intros _.
  unfold PyFloat.of_Z, binary_normalize, binary_round.
  destruct (shl_align _ _ _) as [mz ez]. apply binary_round_aux_sign.
Qed.

Lemma to_float_sign v x :
  bad_amount v = false → to_float v = Returns x → is_negative x = false.
Proof.
  destruct v as [|b|n|y| | |]; simpl; try done.
  - intros _ [= <-]. apply of_Z_sign. by destruct b.
  - intros Hn%Z.leb_gt H.
    assert (is_negative (PyFloat.of_Z n) = false) as Hs
      by (apply of_Z_sign; lia).
    destruct (PyFloat.of_Z n); by simplify_eq.
  - intros Hle [= ->]. by destruct x as [[]|[]| |[]].
Qed.

(** ** The order of the messages *)

Lemma missing_errors_sublist fields d :
  missing_errors fields d
  `sublist_of` List.map (String.append "Missing field: ") fields.
Proof.
  unfold missing_errors. induction fields as [|f fs IH]; simpl.
  - constructor.
  - destruct (contains d f); simpl; by constructor.
Qed.

Ltac solve_sublist :=
  repeat first [apply sublist_nil | apply sublist_skip | apply sublist_cons].

Lemma error_orders_eq :
  error_orders
  = [ ["Invalid JSON structure"]; ["Unknown event type"];
      ["Missing field: user_id"; "Missing field: email"; "Missing field: plan"];
      ["Missing field: payment_id"; "Missing field: user_id";
       "Missing field: amount"; "Missing field: currency"];
      ["Missing field: file_name"; "Missing field: size_bytes";
       "Missing field: bucket"; "Missing field: uploader"];
      ["user_id must be int"; "Invalid email"; "Invalid plan"];
      ["payment_id must be string"; "user_id must be int";
       "amount must be positive number"; "Invalid currency"];
      ["file_name must be string"; "size_bytes must be >= 0";
       "bucket must be string"; "Invalid uploader email"] ].
Proof. reflexivity. Qed.

Lemma error_orders_bounded l :
  l ∈ error_orders → NoDup l ∧ (length l ≤ 4)%nat.
Proof.
  rewrite error_orders_eq. intros H.
  repeat (apply elem_of_cons in H as [->|H];
          [split; [apply (bool_decide_unpack _); by vm_compute | simpl; lia]|]).
  by apply elem_of_nil in H.
Qed.

Lemma sublist_same (l : list string) : l `sublist_of` l.
Proof. reflexivity. Qed.

Tactic Notation "pick_order" integer(n) constr(lem) :=
  eexists; split;
  [ do n apply list_elem_of_further; apply list_elem_of_here | apply lem ].

(** ** The handler, for any tables of the interpreter *)

Section Properties.

Context {T : TextModel}.

(** [is_valid_email] accepts the strings of the language of the pattern,
    and those strings followed by one newline. *)
Lemma is_valid_email_spec s :
  is_valid_email (VStr s) = Returns true
  ↔ Regex.matches email_pattern s
    ∨ ∃ s', s = s' ++ [Regex.newline] ∧ Regex.matches email_pattern s'.
Proof.
  simpl. unfold Regex.match_anchored. split.
  - intros [= H]. apply orb_true_iff in H as [H|H].
    + left. by apply fullmatch_matches.
    + right. destruct (Regex.chop_newline s) as [s'|] eqn:E; [|done].
      exists s'. split; [by apply chop_newline_Some | by apply fullmatch_matches].
  - intros [H|(s' & Hs & H)]; f_equal; apply orb_true_iff.
    + left. by apply fullmatch_matches.
    + right. apply chop_newline_Some in Hs. rewrite Hs.
      by apply fullmatch_matches.
Qed.

(** *** The checks of the type and content phase

    Each guarded condition of the source ([not isinstance(..) or ..])
    returns a boolean and never raises: the guard keeps the second operand
    from running on a value of the wrong type. *)

Lemma email_check v :
  por (negb (isinstance_str v)) (negb <$> is_valid_email v)
  = Returns (bad_email v).
Proof. by destruct v. Qed.

Lemma plan_check v :
  por (negb (isinstance_str v))
    (l ← str_lower v; Returns (negb (PyStr.mem l (PyStr.lits ["free"; "pro"; "edu"]))))
  = Returns (bad_plan v).
Proof. by destruct v. Qed.

Lemma currency_check v :
  por (negb (isinstance_str v))
    (u ← str_upper v; Returns (negb (PyStr.mem u (PyStr.lits ["BHD"; "USD"; "EUR"]))))
  = Returns (bad_currency v).
Proof. by destruct v. Qed.

Lemma bad_email_false v :
  bad_email v = false
  ↔ ∃ s, v = VStr s ∧ Regex.match_anchored email_pattern s = true.
Proof.
  destruct v; simpl; try (split; [done | by intros (? & ? & ?)]).
  rewrite negb_false_iff. split; [eauto | by intros (? & [= ->] & ?)].
Qed.

Lemma bad_plan_false v :
  bad_plan v = false
  ↔ ∃ s, v = VStr s ∧ PyStr.mem (py_lower s) (PyStr.lits ["free"; "pro"; "edu"]) = true.
Proof.
  destruct v; simpl; try (split; [done | by intros (? & ? & ?)]).
  rewrite negb_false_iff. split; [eauto | by intros (? & [= ->] & ?)].
Qed.

Lemma bad_currency_false v :
  bad_currency v = false
  ↔ ∃ s, v = VStr s ∧ PyStr.mem (py_upper s) (PyStr.lits ["BHD"; "USD"; "EUR"]) = true.
Proof.
  destruct v; simpl; try (split; [done | by intros (? & ? & ?)]).
  rewrite negb_false_iff. split; [eauto | by intros (? & [= ->] & ?)].
Qed.

(** ** Every run of a validator is one of its outcomes *)

Lemma handle_user_signup_outcome event :
  signup_outcome event (handle_user_signup event).
Proof.
  unfold handle_user_signup. presence_phase Hm.
  { by constructor. }
  read_fields. rewrite email_check, plan_check. cbn [mbind exc_bind].
  match goal with
  | H1 : _ !! "user_id" = Some ?u, H2 : _ !! "email" = Some ?e,
    H3 : _ !! "plan" = Some ?p |- _ =>
      rename H1 into Hu, H2 into He, H3 into Hp;
      fold (signup_errors u e p);
      destruct (truthy (signup_errors u e p)) eqn:Herr
  end.
  - apply truthy_true in Herr. by econstructor.
  - unfold signup_errors in Herr. rewrite !truthy_append_if in Herr.
    apply orb_false_iff in Herr as [Hplan Herr].
    apply orb_false_iff in Herr as [Hemail Herr].
    apply orb_false_iff in Herr as [Hint _].
    apply negb_false_iff in Hint.
    apply bad_plan_false in Hplan as (p & -> & Hplan).
    apply bad_email_false in Hemail as (e & -> & Hemail).
    cbn. by apply signup_valid.
Qed.

Lemma handle_payment_outcome event :
  payment_outcome event (handle_payment event).
Proof.
  unfold handle_payment. presence_phase Hm.
  { by constructor. }
  read_fields. rewrite amount_check, currency_check. cbn [mbind exc_bind].
  match goal with
  | H1 : _ !! "payment_id" = Some ?i, H2 : _ !! "user_id" = Some ?u,
    H3 : _ !! "amount" = Some ?a, H4 : _ !! "currency" = Some ?c |- _ =>
      rename H1 into Hi, H2 into Hu, H3 into Ha, H4 into Hc;
      fold (payment_errors i u a c);
      destruct (truthy (payment_errors i u a c)) eqn:Herr
  end.
  - apply truthy_true in Herr. by econstructor.
  - unfold payment_errors in Herr. rewrite !truthy_append_if in Herr.
    apply orb_false_iff in Herr as [Hcur Herr].
    apply orb_false_iff in Herr as [Hamt Herr].
    apply orb_false_iff in Herr as [Hint Herr].
    apply orb_false_iff in Herr as [Hstr _].
    apply negb_false_iff in Hint, Hstr.
    apply bad_currency_false in Hcur as (c & -> & Hcur).
    cbn [str_upper str_method mbind exc_bind].
    destruct (to_float_cases _ Hamt) as [[y Hy]|(n & -> & Hn & Hy)];
      rewrite Hy; cbn [mbind exc_bind].
    + by eapply payment_valid.
    + by eapply payment_overflow.
Qed.

Lemma handle_file_upload_outcome event :
  upload_outcome event (handle_file_upload event).
Proof.
  unfold handle_file_upload. presence_phase Hm.
  { by constructor. }
  read_fields. rewrite size_check, email_check. cbn [mbind exc_bind].
  match goal with
  | H1 : _ !! "file_name" = Some ?f, H2 : _ !! "size_bytes" = Some ?z,
    H3 : _ !! "bucket" = Some ?b, H4 : _ !! "uploader" = Some ?u |- _ =>
      rename H1 into Hf, H2 into Hz, H3 into Hb, H4 into Hu;
      fold (upload_errors f z b u);
      destruct (truthy (upload_errors f z b u)) eqn:Herr
  end.
  - apply truthy_true in Herr. by econstructor.
  - unfold upload_errors in Herr. rewrite !truthy_append_if in Herr.
    apply orb_false_iff in Herr as [Hmail Herr].
    apply orb_false_iff in Herr as [Hbk Herr].
    apply orb_false_iff in Herr as [Hsz Herr].
    apply orb_false_iff in Herr as [Hfn _].
    apply negb_false_iff in Hbk, Hfn.
    apply bad_email_false in Hmail as (u & -> & Hmail).
    apply isinstance_str_true in Hbk as [b ->].
    apply isinstance_str_true in Hfn as [f ->].
    apply bad_size_false in Hsz as (n & Hn & Hpos).
    cbn [str_strip str_lower str_method mbind exc_bind].
    rewrite !(lt_int_int_value _ n) by done. cbn [mbind exc_bind].
    destruct (n <? 1000000) eqn:E1; cbn [mbind exc_bind];
      [|destruct (n <? 50000000) eqn:E2; cbn [mbind exc_bind]].
    + assert (storage_class_of n = "STANDARD") as <-
        by (unfold storage_class_of; by rewrite E1).
      by eapply upload_valid.
    + assert (storage_class_of n = "STANDARD_IA") as <-
        by (unfold storage_class_of; by rewrite E1, E2).
      by eapply upload_valid.
    + assert (storage_class_of n = "GLACIER") as <-
        by (unfold storage_class_of; by rewrite E1, E2).
      by eapply upload_valid.
Qed.

(** ** The dispatcher *)

Lemma handler_signup d context :
  d !! "type" = Some (VStr "USER_SIGNUP") →
  handler (VDict d) context = handle_user_signup d.
Proof. intros H. unfold handler, dict_get. rewrite H. reflexivity. Qed.

Lemma handler_payment d context :
  d !! "type" = Some (VStr "PAYMENT") →
  handler (VDict d) context = handle_payment d.
Proof. intros H. unfold handler, dict_get. rewrite H. reflexivity. Qed.

Lemma handler_upload d context :
  d !! "type" = Some (VStr "FILE_UPLOAD") →
  handler (VDict d) context = handle_file_upload d.
Proof. intros H. unfold handler, dict_get. rewrite H. reflexivity. Qed.

Lemma handler_unknown d context :
  (∀ t : string, t ∈ known_types → d !! "type" ≠ Some (VStr t)) →
  handler (VDict d) context = Returns (error_response ["Unknown event type"]).
Proof.
  intros H. unfold handler. cbv zeta.
  rewrite !(proj2 (event_type_is_not d _)); [done|..];
    apply H; unfold known_types; set_solver.
Qed.

Lemma handler_outcome d context :
  dispatch_outcome d (handler (VDict d) context).
Proof.
  destruct (eq_str (dict_get d "type") "USER_SIGNUP") eqn:E1.
  { apply event_type_is in E1. rewrite (handler_signup _ _ E1).
    apply dispatch_signup; [done|]. apply handle_user_signup_outcome. }
  destruct (eq_str (dict_get d "type") "PAYMENT") eqn:E2.
  { apply event_type_is in E2. rewrite (handler_payment _ _ E2).
    apply dispatch_payment; [done|]. apply handle_payment_outcome. }
  destruct (eq_str (dict_get d "type") "FILE_UPLOAD") eqn:E3.
  { apply event_type_is in E3. rewrite (handler_upload _ _ E3).
    apply dispatch_upload; [done|]. apply handle_file_upload_outcome. }
  apply event_type_is_not in E1, E2, E3.
  assert (∀ t : string, t ∈ known_types → d !! "type" ≠ Some (VStr t)) as Hn.
  { intros t Ht. unfold known_types in Ht.
    repeat (apply elem_of_cons in Ht as [->|Ht]; [done|]).
    by apply elem_of_nil in Ht. }
  rewrite (handler_unknown _ _ Hn). by constructor.
Qed.

(** The only exception [handler] lets escape is the [OverflowError] of
    [float(amount)], on a payment that passed every check with an integer
    amount too large for a float. *)
Lemma handler_raises event context e :
  handler event context = Raises e →
  e = OverflowError ∧
  ∃ d n, event = VDict d ∧ d !! "type" = Some (VStr "PAYMENT") ∧
         d !! "amount" = Some (VInt n) ∧
         to_float (VInt n) = Raises OverflowError.
Proof.
  destruct event as [| | | | | |d]; try discriminate.
  intros H. pose proof (handler_outcome d context) as Ho. rewrite H in Ho.
  inversion Ho as [|r Ht Hs|r Ht Hp|r Ht Hu]; subst.
  - inversion Hs.
  - inversion Hp; subst. eauto 10.
  - inversion Hu.
Qed.

(** ** Shape of the returned envelope *)

Lemma handler_returns_shape event context env :
  handler event context = Returns env →
  error_envelope env ∨ success_envelope env.
Proof.
  intros H.
  destruct event as [| | | | | |d];
    try (injection H as <-; left; by apply error_response_envelope).
  pose proof (handler_outcome d context) as Ho. rewrite H in Ho.
  inversion Ho as [|r Ht Hs|r Ht Hp|r Ht Hu]; subst.
  - left. by apply error_response_envelope.
  - inversion Hs; subst; [left; by apply error_response_envelope..|].
    right. split_and!; [done..|]. apply insert_non_empty.
  - inversion Hp; subst; [left; by apply error_response_envelope..|].
    right. split_and!; [done..|]. apply insert_non_empty.
  - inversion Hu; subst; [left; by apply error_response_envelope..|].
    right. split_and!; [done..|]. apply insert_non_empty.
Qed.

(** ** Accepted events

    When every required field is present and every check passes, the
    validators return their success envelope. *)

Lemma handle_user_signup_valid d user_id email plan :
  d !! "user_id" = Some user_id →
  d !! "email" = Some (VStr email) →
  d !! "plan" = Some (VStr plan) →
  isinstance_int user_id = true →
  Regex.match_anchored email_pattern email = true →
  PyStr.mem (py_lower plan) (PyStr.lits ["free"; "pro"; "edu"]) = true →
  handle_user_signup d = Returns (signup_ok user_id email plan).
Proof.
  intros Hu He Hp Hint Hmail Hplan.
  destruct (handle_user_signup_outcome d) as [Hm|u e p ? ? ? Herr|u e p];
    simplify_eq.
  - destruct Hm. all_present.
  - destruct Herr. unfold signup_errors, bad_plan, bad_email.
    by rewrite Hint, Hmail, Hplan.
  - done.
Qed.

Lemma handle_payment_valid d payment_id user_id amount currency x :
  d !! "payment_id" = Some payment_id →
  d !! "user_id" = Some user_id →
  d !! "amount" = Some amount →
  d !! "currency" = Some (VStr currency) →
  isinstance_str payment_id = true →
  isinstance_int user_id = true →
  bad_amount amount = false →
  PyStr.mem (py_upper currency) (PyStr.lits ["BHD"; "USD"; "EUR"]) = true →
  to_float amount = Returns x →
  handle_payment d = Returns (payment_ok payment_id user_id x currency).
Proof.
  intros Hi Hu Ha Hc Hstr Hint Hamt Hcur Hx.
  destruct (handle_payment_outcome d)
    as [Hm|i u a c ? ? ? ? Herr|i u a c y|i u n c]; simplify_eq.
  - destruct Hm. all_present.
  - destruct Herr. unfold payment_errors, bad_currency.
    by rewrite Hstr, Hint, Hamt, Hcur.
  - congruence.
  - congruence.
Qed.

Lemma handle_file_upload_valid d file_name size_bytes n bucket uploader :
  d !! "file_name" = Some (VStr file_name) →
  d !! "size_bytes" = Some size_bytes →
  d !! "bucket" = Some (VStr bucket) →
  d !! "uploader" = Some (VStr uploader) →
  int_value size_bytes = Some n →
  0 <= n →
  Regex.match_anchored email_pattern uploader = true →
  handle_file_upload d
  = Returns (upload_ok file_name size_bytes n bucket uploader).
Proof.
  intros Hf Hz Hb Hu Hn Hpos Hmail.
  destruct (handle_file_upload_outcome d)
    as [Hm|f z b u ? ? ? ? Herr|f z m b u]; simplify_eq.
  - destruct Hm. all_present.
  - destruct Herr. unfold upload_errors, bad_email. rewrite Hmail.
    by rewrite (proj2 (bad_size_false size_bytes)) by eauto.
  - done.
Qed.

(** ** Where the errors of an envelope come from *)

Lemma handler_errors_origin d context env :
  handler (VDict d) context = Returns env → errors_origin d (errors env).
Proof.
  intros H. pose proof (handler_outcome d context) as Ho. rewrite H in Ho.
  inversion Ho as [|r Ht Hs|r Ht Hp|r Ht Hu]; subst.
  - constructor.
  - inversion Hs; subst; simpl; by econstructor.
  - inversion Hp; subst; simpl; by econstructor.
  - inversion Hu; subst; simpl; by econstructor.
Qed.

(** Splits the membership of a message in a list of phase-two errors. *)
Ltac split_errors H :=
  unfold signup_errors, payment_errors, upload_errors in H;
  rewrite ?elem_of_append_if, ?elem_of_nil, ?list_elem_of_singleton in H;
  decompose [and or] H; clear H; try done; try discriminate.

(** ** Rejected events *)

Lemma handle_user_signup_absent d :
  missing_errors signup_fields d ≠ [] →
  handle_user_signup d
  = Returns (error_response (missing_errors signup_fields d)).
Proof.
  intros Hne.
  destruct (handle_user_signup_outcome d) as [Hm|u e p ? ? ? Herr|u e p];
    [done|destruct Hne; all_present..].
Qed.

Lemma handle_user_signup_rejected d user_id email plan :
  d !! "user_id" = Some user_id →
  d !! "email" = Some email →
  d !! "plan" = Some plan →
  signup_errors user_id email plan ≠ [] →
  handle_user_signup d
  = Returns (error_response (signup_errors user_id email plan)).
Proof.
  intros Hu He Hp Hne.
  destruct (handle_user_signup_outcome d) as [Hm|u e p ? ? ? Herr|u e p];
    simplify_eq.
  - destruct Hm. all_present.
  - done.
  - destruct Hne. unfold signup_errors, bad_plan, bad_email.
    by repeat match goal with H : _ = true |- _ => rewrite H; clear H end.
Qed.

Lemma handle_payment_rejected d payment_id user_id amount currency :
  d !! "payment_id" = Some payment_id →
  d !! "user_id" = Some user_id →
  d !! "amount" = Some amount →
  d !! "currency" = Some currency →
  payment_errors payment_id user_id amount currency ≠ [] →
  handle_payment d
  = Returns (error_response
               (payment_errors payment_id user_id amount currency)).
Proof.
  intros Hi Hu Ha Hc Hne.
  destruct (handle_payment_outcome d)
    as [Hm|i u a c ? ? ? ? Herr|i u a c y ? ? ? ? Hstr Hint Hamt Hcur
       |i u n c ? ? ? ? Hstr Hint Hn ? Hcur]; simplify_eq.
  - destruct Hm. all_present.
  - done.
  - destruct Hne. unfold payment_errors, bad_currency.
    by rewrite Hstr, Hint, Hamt, Hcur.
  - destruct Hne. unfold payment_errors, bad_currency.
    rewrite Hstr, Hint, Hcur. simpl. by rewrite (proj2 (Z.leb_gt n 0)).
Qed.

Lemma handle_payment_overflow d payment_id user_id n currency :
  d !! "payment_id" = Some payment_id →
  d !! "user_id" = Some user_id →
  d !! "amount" = Some (VInt n) →
  d !! "currency" = Some (VStr currency) →
  isinstance_str payment_id = true →
  isinstance_int user_id = true →
  0 < n →
  PyStr.mem (py_upper currency) (PyStr.lits ["BHD"; "USD"; "EUR"]) = true →
  to_float (VInt n) = Raises OverflowError →
  handle_payment d = Raises OverflowError.
Proof.
  intros Hi Hu Ha Hc Hstr Hint Hn Hcur Hx.
  destruct (handle_payment_outcome d)
    as [Hm|i u a c ? ? ? ? Herr|i u a c y|i u m c]; simplify_eq.
  - destruct Hm. all_present.
  - destruct Herr. unfold payment_errors, bad_currency.
    rewrite Hstr, Hint, Hcur. simpl.
    by rewrite (proj2 (Z.leb_gt n 0)).
  - congruence.
  - done.
Qed.

Lemma handle_file_upload_rejected d file_name size_bytes bucket uploader :
  d !! "file_name" = Some file_name →
  d !! "size_bytes" = Some size_bytes →
  d !! "bucket" = Some bucket →
  d !! "uploader" = Some uploader →
  upload_errors file_name size_bytes bucket uploader ≠ [] →
  handle_file_upload d
  = Returns (error_response
               (upload_errors file_name size_bytes bucket uploader)).
Proof.
  intros Hf Hz Hb Hu Hne.
  destruct (handle_file_upload_outcome d)
    as [Hm|f z b u ? ? ? ? Herr|f z m b u ? ? ? ? Hn Hpos Hmail];
    simplify_eq.
  - destruct Hm. all_present.
  - done.
  - destruct Hne. unfold upload_errors, bad_email. rewrite Hmail.
    by rewrite (proj2 (bad_size_false size_bytes)) by eauto.
Qed.

(** ** The handler on ASCII text

    On a string of ASCII characters the checks and the normal forms are
    those of the ASCII tables. *)

Section Ascii.

Context {L : TextLaws T}.

Lemma email_pattern_ascii :
  similar (λ c, (c < 128)%N) email_pattern (@email_pattern ascii_text).
Proof.
  assert (similar (λ c, (c < 128)%N)
            (Regex.Plus (Regex.Class email_char))
            (Regex.Plus (Regex.Class (@email_char ascii_text)))) as Hplus.
  { assert (similar (λ c, (c < 128)%N) (Regex.Class email_char)
              (Regex.Class (@email_char ascii_text))) as Hc.
    { constructor. intros c Hc. unfold email_char.
      by rewrite (py_isspace_ascii c Hc). }
    apply similar_seq; [exact Hc | apply similar_star; exact Hc]. }
  unfold email_pattern, Regex.Lit.
  repeat first [exact Hplus | by apply similar_class | apply similar_seq].
Qed.

Lemma match_anchored_ascii s :
  PyStr.is_ascii s = true →
  Regex.match_anchored email_pattern s
  = Regex.match_anchored (@email_pattern ascii_text) s.
Proof.
  intros Hs%is_ascii_Forall.
  by apply (similar_match_anchored _ _ _ _ Hs), email_pattern_ascii.
Qed.

Lemma strip_ascii s :
  PyStr.is_ascii s = true →
  PyStr.strip py_isspace s = PyStr.strip PyStr.ascii_isspace s.
Proof.
  intros Hs%is_ascii_Forall. apply strip_ext.
  eapply Forall_impl; [exact Hs|]. apply py_isspace_ascii.
Qed.

End Ascii.

(** Evaluates the text operations of a goal on ASCII literals. *)
Ltac on_ascii :=
  rewrite ?match_anchored_ascii, ?py_lower_ascii, ?py_upper_ascii,
    ?strip_ascii by reflexivity.

(** *** The text operations on known values of Python *)

Example email_accepts_trailing_newline :
  TextLaws T →
  is_valid_email (VStr (PyStr.lit "a@b.c" ++ [Regex.newline])) = Returns true.
Proof. intros L. simpl. on_ascii. reflexivity. Qed.

Example email_rejects_separator :
  TextLaws T →
  is_valid_email (VStr (PyStr.lit "a@b.c" ++ [28%N])) = Returns false.
Proof. intros L. simpl. on_ascii. reflexivity. Qed.

Example email_rejects_two_ats :
  TextLaws T → is_valid_email (VStr "a@b@c.d") = Returns false.
Proof. intros L. simpl. on_ascii. reflexivity. Qed.

Example strip_whitespace :
  TextLaws T →
  PyStr.strip py_isspace (9%N :: PyStr.lit " a b  ") = PyStr.lit "a b".
Proof. intros L. on_ascii. reflexivity. Qed.

(** ** The properties of the specification *)

(** C2. Whatever the event, an envelope returned by [handler] has status
    "ok" exactly when its error list is empty, has empty data exactly when
    its status is "error", and an error envelope carries the message
    "Validation failed". *)
Theorem envelope_invariant (event context : pyval) (env : envelope) :
  handler event context = Returns env →
  (status env = "ok" ↔ errors env = []) ∧
  (data env = ∅ ↔ status env = "error") ∧
  (status env = "error" → message env = "Validation failed").
Proof.
  intros H.
  destruct (handler_returns_shape _ _ _ H)
    as [(errs & Hne & ->)|(Hs & He & Hd)].
  - simpl. split_and!; [split; [discriminate | done] | done | done].
  - rewrite Hs, He. split_and!; [done | split; [done | discriminate] | discriminate].
Qed.

(** C3. An event that is not a mapping is answered with the error envelope
    whose single error is "Invalid JSON structure"; a mapping whose [type]
    is absent or is none of the three known types, with the error envelope
    whose single error is "Unknown event type". *)
Theorem structural_errors (event context : pyval) :
  ((∀ d, event ≠ VDict d) →
   handler event context
   = Returns {| status := "error";
                message := "Validation failed";
                data := ∅;
                errors := ["Invalid JSON structure"] |}) ∧
  (∀ d, event = VDict d →
        d !! "type" ∉ [Some (VStr "USER_SIGNUP"); Some (VStr "PAYMENT");
                       Some (VStr "FILE_UPLOAD")] →
        handler event context
        = Returns {| status := "error";
                     message := "Validation failed";
                     data := ∅;
                     errors := ["Unknown event type"] |}).
Proof.
  split.
  - intros Hn. destruct event as [| | | | | |d]; try reflexivity.
    by destruct (Hn d).
  - intros d -> Hn. rewrite handler_unknown; [reflexivity|].
    intros t Ht Heq.
    apply Hn. rewrite Heq. unfold known_types in Ht.
    repeat (apply elem_of_cons in Ht as [->|Ht]; [by repeat constructor|]).
    by apply elem_of_nil in Ht.
Qed.

(** C9. The result of [handler] is a function of the event alone: the
    context is never inspected. *)
Theorem handler_ignores_context (event context1 context2 : pyval) :
  handler event context1 = handler event context2.
Proof. destruct event; reflexivity. Qed.

(** C8. A fully valid signup is accepted with message "Signup processed";
    the data keep [user_id], hold [email.lower()] and [plan.lower()], and
    the welcome subject names the lower-case plan. The signup of user 1
    with "A@B.COM" and "FREE" stores "a@b.com", "free" and "Welcome to the
    free plan!". *)
Theorem signup_success :
  (∀ (d : gmap string pyval) (context user_id : pyval)
     (email plan : PyStr.pystr),
     d !! "type" = Some (VStr "USER_SIGNUP") →
     d !! "user_id" = Some user_id →
     d !! "email" = Some (VStr email) →
     d !! "plan" = Some (VStr plan) →
     isinstance_int user_id = true →
     is_valid_email (VStr email) = Returns true →
     PyStr.mem (py_lower plan) (PyStr.lits ["free"; "pro"; "edu"]) = true →
     handler (VDict d) context
     = Returns
         {| status := "ok";
            message := "Signup processed";
            data := {[ "user_id" := user_id;
                       "email" := VStr (py_lower email);
                       "plan" := VStr (py_lower plan);
                       "welcome_email_subject" :=
                         VStr (PyStr.lit "Welcome to the " ++ py_lower plan
                               ++ PyStr.lit " plan!") ]};
            errors := [] |}) ∧
  (TextLaws T →
   handler happy_signup VNone
   = Returns
       {| status := "ok";
          message := "Signup processed";
          data := {[ "user_id" := VInt 1;
                     "email" := VStr "a@b.com";
                     "plan" := VStr "free";
                     "welcome_email_subject" :=
                       VStr "Welcome to the free plan!" ]};
          errors := [] |}).
Proof.
  assert (∀ (d : gmap string pyval) (context user_id : pyval)
            (email plan : PyStr.pystr),
            d !! "type" = Some (VStr "USER_SIGNUP") →
            d !! "user_id" = Some user_id →
            d !! "email" = Some (VStr email) →
            d !! "plan" = Some (VStr plan) →
            isinstance_int user_id = true →
            is_valid_email (VStr email) = Returns true →
            PyStr.mem (py_lower plan) (PyStr.lits ["free"; "pro"; "edu"]) = true →
            handler (VDict d) context = Returns (signup_ok user_id email plan))
    as Hgen.
  { intros d context user_id email plan Ht Hu He Hp Hint Hmail Hplan.
    rewrite (handler_signup _ _ Ht).
    injection Hmail as Hmail.
    by rewrite (handle_user_signup_valid d user_id email plan). }
  split; [exact Hgen|].
  intros L. unfold happy_signup.
  rewrite (Hgen _ VNone (VInt 1) "A@B.COM" "FREE");
    try (simpl; on_ascii); try reflexivity.
  unfold signup_ok. on_ascii. reflexivity.
Qed.

(** C4. A signup with an absent required field is answered with the error
    envelope whose errors are exactly the "Missing field" messages of the
    absent fields, in the order [user_id], [email], [plan], and none of
    the messages of the second phase. *)
Theorem signup_missing_fields :
  (∀ (d : gmap string pyval) (context : pyval),
     d !! "type" = Some (VStr "USER_SIGNUP") →
     (∃ f, f ∈ ["user_id"; "email"; "plan"] ∧ d !! f = None) →
     handler (VDict d) context
     = Returns
         {| status := "error";
            message := "Validation failed";
            data := ∅;
            errors := missing_errors ["user_id"; "email"; "plan"] d |} ∧
     missing_errors ["user_id"; "email"; "plan"] d ≠ [] ∧
     ∀ e, e ∈ ["user_id must be int"; "Invalid email"; "Invalid plan"] →
          e ∉ missing_errors ["user_id"; "email"; "plan"] d) ∧
  handler (VDict {[ "type" := VStr "USER_SIGNUP" ]}) VNone
  = Returns
      {| status := "error";
         message := "Validation failed";
         data := ∅;
         errors := ["Missing field: user_id"; "Missing field: email";
                    "Missing field: plan"] |}.
Proof.
  split; [|reflexivity].
  intros d context Ht (f & Hf & Hnone).
  assert (missing_errors signup_fields d ≠ []) as Hne.
  { rewrite missing_errors_nil, Forall_forall. intros Hall.
    destruct (contains_true d f (Hall f Hf)) as [v Hv]. congruence. }
  split_and!; [|done|].
  - rewrite (handler_signup _ _ Ht).
    by rewrite (handle_user_signup_absent d Hne).
  - intros e He (g & -> & _ & _)%elem_of_missing_errors.
    repeat (apply elem_of_cons in He as [He|He]; [discriminate|]).
    by apply elem_of_nil in He.
Qed.

(** C7. A valid upload is accepted, and its storage class is decided by
    the integer [size_bytes] alone: STANDARD below 1,000,000, STANDARD_IA
    from there up to 50,000,000 excluded, GLACIER from 50,000,000 on. *)
Theorem storage_class_by_size :
  (∀ (d : gmap string pyval) (context size_bytes : pyval)
     (file_name bucket uploader : PyStr.pystr) (n : Z),
     d !! "type" = Some (VStr "FILE_UPLOAD") →
     d !! "file_name" = Some (VStr file_name) →
     d !! "size_bytes" = Some size_bytes →
     d !! "bucket" = Some (VStr bucket) →
     d !! "uploader" = Some (VStr uploader) →
     int_value size_bytes = Some n →
     0 <= n →
     is_valid_email (VStr uploader) = Returns true →
     ∃ env, handler (VDict d) context = Returns env ∧
            status env = "ok" ∧
            data env !! "size_bytes" = Some size_bytes ∧
            data env !! "storage_class"
            = Some (VStr (if n <? 1000000 then "STANDARD"
                          else if n <? 50000000 then "STANDARD_IA"
                          else "GLACIER"))) ∧
  (TextLaws T →
   storage_class_in (handler (upload_of_size 999999) VNone)
   = Some (VStr "STANDARD") ∧
   storage_class_in (handler (upload_of_size 1000000) VNone)
   = Some (VStr "STANDARD_IA") ∧
   storage_class_in (handler (upload_of_size 49999999) VNone)
   = Some (VStr "STANDARD_IA") ∧
   storage_class_in (handler (upload_of_size 50000000) VNone)
   = Some (VStr "GLACIER")).
Proof.
  split.
  - intros d context size_bytes file_name bucket uploader n
      Ht Hf Hz Hb Hu Hn Hpos Hmail.
    injection Hmail as Hmail.
    rewrite (handler_upload _ _ Ht).
    rewrite (handle_file_upload_valid d file_name size_bytes n bucket uploader)
      by done.
    eexists. split; [reflexivity|]. split_and!; [done..|].
    simpl. unfold storage_class_of.
    by destruct (n <? 1000000), (n <? 50000000).
  - intros L.
    assert (∀ n, 0 <= n →
              storage_class_in (handler (upload_of_size n) VNone)
              = Some (VStr (storage_class_of n))) as Hsize.
    { intros n Hn. unfold upload_of_size.
      rewrite handler_upload by reflexivity.
      rewrite (handle_file_upload_valid _ " report.pdf " (VInt n) n
                 "Archive" "Ops@Example.com");
        try (on_ascii; reflexivity); done. }
    split_and!; by rewrite Hsize.
Qed.

(** C5. The second phase of the payment validator reports every failed
    check: when the four fields are present and a check fails, the event
    is rejected and the errors hold the message of a check exactly when
    that check fails. The event with [payment_id] 123, [user_id] "x",
    [amount] -5 and [currency] "XXX" is rejected with four errors, the
    four messages. *)
Theorem payment_accumulates_errors :
  (∀ (d : gmap string pyval) (context payment_id user_id amount currency : pyval),
     d !! "type" = Some (VStr "PAYMENT") →
     d !! "payment_id" = Some payment_id →
     d !! "user_id" = Some user_id →
     d !! "amount" = Some amount →
     d !! "currency" = Some currency →
     isinstance_str payment_id = false ∨ isinstance_int user_id = false ∨
       bad_amount amount = true ∨ bad_currency currency = true →
     ∃ env,
       handler (VDict d) context = Returns env ∧
       status env = "error" ∧
       ("payment_id must be string" ∈ errors env
        ↔ isinstance_str payment_id = false) ∧
       ("user_id must be int" ∈ errors env
        ↔ isinstance_int user_id = false) ∧
       ("amount must be positive number" ∈ errors env
        ↔ bad_amount amount = true) ∧
       ("Invalid currency" ∈ errors env ↔ bad_currency currency = true)) ∧
  (TextLaws T →
   ∃ env,
     handler rejected_payment VNone = Returns env ∧
     status env = "error" ∧
     length (errors env) = 4%nat ∧
     errors env = ["payment_id must be string"; "user_id must be int";
                   "amount must be positive number"; "Invalid currency"]).
Proof.
  split.
  - intros d context payment_id user_id amount currency Ht Hi Hu Ha Hc Hbad.
    rewrite (handler_payment _ _ Ht).
    rewrite (handle_payment_rejected d payment_id user_id amount currency);
      try done.
    + eexists. split; [reflexivity|]. split; [reflexivity|].
      simpl. unfold payment_errors.
      rewrite !elem_of_append_if, !elem_of_nil, !negb_true_iff.
      split_and!; intuition discriminate.
    + apply truthy_true. unfold payment_errors. rewrite !truthy_append_if.
      destruct Hbad as [->|[->|[->| ->]]]; simpl; by rewrite ?orb_true_r.
  - intros L. unfold rejected_payment.
    rewrite handler_payment by reflexivity.
    assert (payment_errors (VInt 123) (VStr "x") (VInt (-5)) (VStr "XXX")
            = ["payment_id must be string"; "user_id must be int";
               "amount must be positive number"; "Invalid currency"]) as He.
    { unfold payment_errors, bad_currency. on_ascii. reflexivity. }
    rewrite (handle_payment_rejected _ (VInt 123) (VStr "x") (VInt (-5))
               (VStr "XXX")); try reflexivity.
    + rewrite He. eexists. split; [reflexivity|]. done.
    + by rewrite He.
Qed.

(** C6. On the payment of user 1 with [payment_id] "p1", [currency] "usd"
    and the integer amount [10^400], every check passes and
    [float(amount)] raises [OverflowError]: [handler] returns no envelope,
    neither the success data the specification describes nor the error
    envelope every other failing path returns. With the amount -5 in its
    place the same event is answered with an error envelope. *)
Theorem overflow_escapes_handler :
  TextLaws T →
  payment_errors (VStr "p1") (VInt 1) (VInt (10 ^ 400)) (VStr "usd") = [] ∧
  handler oversized_payment VNone = Raises OverflowError ∧
  (¬ ∃ env, handler oversized_payment VNone = Returns env) ∧
  handler
    (VDict {[ "type" := VStr "PAYMENT"; "payment_id" := VStr "p1";
              "user_id" := VInt 1; "amount" := VInt (-5);
              "currency" := VStr "usd" ]}) VNone
  = Returns {| status := "error";
               message := "Validation failed";
               data := ∅;
               errors := ["amount must be positive number"] |}.
Proof.
  intros L.
  assert (handler oversized_payment VNone = Raises OverflowError) as H.
  { unfold oversized_payment. rewrite handler_payment by reflexivity.
    apply (handle_payment_overflow _ (VStr "p1") (VInt 1) (10 ^ 400) "usd");
      try (on_ascii; reflexivity); done. }
  split_and!.
  - unfold payment_errors, bad_currency. on_ascii. by vm_compute.
  - done.
  - intros [env Henv]. congruence.
  - rewrite handler_payment by reflexivity.
    rewrite (handle_payment_rejected _ (VStr "p1") (VInt 1) (VInt (-5))
               (VStr "usd")); try reflexivity.
    + unfold payment_errors, bad_currency. on_ascii. reflexivity.
    + unfold payment_errors, bad_currency. on_ascii. by vm_compute.
Qed.

(** A signup whose [user_id] is [True] is accepted. *)
Lemma signup_by_bool_accepted :
  TextLaws T →
  handler signup_by_bool VNone
  = Returns (signup_ok (VBool true) "a@b.com" "pro").
Proof.
  intros L. unfold signup_by_bool. rewrite handler_signup by reflexivity.
  apply handle_user_signup_valid; try (on_ascii; reflexivity).
Qed.

(** C1, amended. A boolean passes every integer check, since
    [isinstance(True, int)] holds: an event whose [user_id] is a boolean
    never gets "user_id must be int", one whose [size_bytes] is a boolean
    never gets "size_bytes must be >= 0", and one whose [amount] is [True]
    never gets "amount must be positive number"; a payment with all four
    fields whose [amount] is [False] gets it, zero being no positive
    number. *)
Theorem booleans_pass_int_checks
    (d : gmap string pyval) (context : pyval) (env : envelope) (b : bool) :
  handler (VDict d) context = Returns env →
  (d !! "user_id" = Some (VBool b) → "user_id must be int" ∉ errors env) ∧
  (d !! "size_bytes" = Some (VBool b) →
   "size_bytes must be >= 0" ∉ errors env) ∧
  (d !! "amount" = Some (VBool true) →
   "amount must be positive number" ∉ errors env) ∧
  (d !! "type" = Some (VStr "PAYMENT") →
   Forall (λ f, is_Some (d !! f)) payment_fields →
   d !! "amount" = Some (VBool false) →
   "amount must be positive number" ∈ errors env).
Proof.
  intros H.
  assert (d !! "type" = Some (VStr "PAYMENT") →
          Forall (λ f, is_Some (d !! f)) payment_fields →
          d !! "amount" = Some (VBool false) →
          "amount must be positive number" ∈ errors env) as Hfalse.
  { intros Ht Hall Ha. rewrite (handler_payment _ _ Ht) in H.
    destruct (handle_payment_outcome d)
      as [Hm|i u a c ? ? ? ? Herr|i u a c y|i u n c]; simplify_eq.
    - destruct Hm. by apply no_missing_errors.
    - simpl. unfold payment_errors. rewrite !elem_of_append_if. auto. }
  apply handler_errors_origin in H.
  split_and!; [| | |done]; intros Hb Hin;
    destruct H as [| |fields|u e p ? ? ? ?|i u a c ? ? ? ? ?|f z k u ? ? ? ? ?];
    try (by apply elem_of_nil in Hin);
    try (apply list_elem_of_singleton in Hin; discriminate);
    try (apply elem_of_missing_errors in Hin as (g & Hg & _); discriminate);
    simplify_eq; split_errors Hin.
  by destruct b.
Qed.

(** Settles one field of one validator in the proof below: [run] is the
    outcome lemma of the validator and [disp] the dispatch lemma. *)
Ltac none_is_reported disp run d Ht :=
  rewrite (disp _ _ Ht);
  destruct (run d); simplify_eq/=;
  [ match goal with Hm : _ ≠ [] |- _ => destruct Hm; all_present end
  | eexists; split; [reflexivity|]; split; [reflexivity|];
    cbn [errors error_response]; split;
    [ unfold signup_errors, payment_errors, upload_errors;
      rewrite !elem_of_append_if; simpl; intuition
    | let Hin := fresh in intros Hin; split_errors Hin ] ].

(** C10. Presence is key membership: a field whose key is in the event,
    whatever its value, never gets a "Missing field" message. When every
    required field is present, a field holding [None] makes the event
    rejected with the message of its check of the second phase instead. *)
Theorem presence_is_key_membership :
  (∀ (d : gmap string pyval) (context v : pyval) (env : envelope) (f : string),
     d !! f = Some v →
     handler (VDict d) context = Returns env →
     "Missing field: " +:+ f ∉ errors env) ∧
  (∀ (d : gmap string pyval) (context : pyval) (ty f msg : string)
     (checks : list (string * string)),
     (ty, checks) ∈ type_checks →
     (f, msg) ∈ checks →
     d !! "type" = Some (VStr ty) →
     Forall (λ c, is_Some (d !! c.1)) checks →
     d !! f = Some VNone →
     ∃ env, handler (VDict d) context = Returns env ∧
            status env = "error" ∧
            msg ∈ errors env ∧
            "Missing field: " +:+ f ∉ errors env).
Proof.
  split.
  - intros d context v env f Hf H Hin. apply handler_errors_origin in H.
    destruct H as [| |fields|u e p ? ? ? ?|i u a c ? ? ? ? ?|n z k u ? ? ? ? ?].
    + by apply elem_of_nil in Hin.
    + apply list_elem_of_singleton in Hin. discriminate.
    + apply elem_of_missing_errors in Hin as (g & Hg & _ & Hnone).
      apply missing_field_message_inj in Hg as ->. congruence.
    + split_errors Hin.
    + split_errors Hin.
    + split_errors Hin.
  - intros d context ty f msg checks Hty Hf Ht Hall Hnone.
    unfold type_checks in Hty.
    repeat (apply elem_of_cons in Hty as [[= -> ->]|Hty]);
      [..|by apply elem_of_nil in Hty];
      repeat (apply Forall_cons in Hall as [[? ?] Hall]); cbn [fst] in *;
      repeat (apply elem_of_cons in Hf as [[= -> ->]|Hf]);
      try (by apply elem_of_nil in Hf).
    all: first
      [ none_is_reported handler_signup handle_user_signup_outcome d Ht
      | none_is_reported handler_payment handle_payment_outcome d Ht
      | none_is_reported handler_upload handle_file_upload_outcome d Ht ].
Qed.

(** ** Further properties of the code *)

(** *** The shape of an accepted address *)

Lemma email_pattern_matches s :
  Regex.matches email_pattern s
  ↔ ∃ a b c, email_part a ∧ email_part b ∧ email_part c ∧
             s = a ++ [at_sign] ++ b ++ [full_stop] ++ c.
Proof.
  unfold email_pattern, email_part. split.
  - intros H.
    apply matches_seq_inv in H as (a & ? & -> & Ha%matches_plus_class & H).
    apply matches_seq_inv in H as (? & ? & -> & ->%matches_lit & H).
    apply matches_seq_inv in H as (b & ? & -> & Hb%matches_plus_class & H).
    apply matches_seq_inv in H
      as (? & c & -> & ->%matches_lit & Hc%matches_plus_class).
    eauto 10.
  - intros (a & b & c & Ha & Hb & Hc & ->).
    apply matches_seq_inv. eexists _, _.
    split_and!; [done | by apply matches_plus_class |].
    apply matches_seq_inv. eexists _, _.
    split_and!; [done | by apply matches_lit |].
    apply matches_seq_inv. eexists _, _.
    split_and!; [done | by apply matches_plus_class |].
    apply matches_seq_inv. eexists _, _.
    split_and!; [done | by apply matches_lit | by apply matches_plus_class].
Qed.

(** X1. [is_valid_email] accepts exactly the strings [a@b.c], and those
    strings followed by one newline, where [a], [b] and [c] are not empty
    and hold no [@] and no whitespace. *)
Theorem valid_email_shape (s : PyStr.pystr) :
  is_valid_email (VStr s) = Returns true
  ↔ ∃ a b c, email_part a ∧ email_part b ∧ email_part c ∧
             (s = a ++ [at_sign] ++ b ++ [full_stop] ++ c ∨
              s = (a ++ [at_sign] ++ b ++ [full_stop] ++ c)
                  ++ [Regex.newline]).
Proof.
  rewrite is_valid_email_spec, email_pattern_matches. split.
  - intros [(a & b & c & Ha & Hb & Hc & ->)|(s' & -> & H)].
    + eauto 10.
    + apply email_pattern_matches in H as (a & b & c & Ha & Hb & Hc & ->).
      exists a, b, c. eauto.
  - intros (a & b & c & Ha & Hb & Hc & [->| ->]).
    + left. eauto 10.
    + right. eexists. split; [reflexivity|].
      apply email_pattern_matches. eauto 10.
Qed.

(** *** Only the type and the required fields are read *)

Ltac same_fields H :=
  unfold handle_user_signup, handle_payment, handle_file_upload,
    check_missing, contains, getitem;
  cbn [fold_left];
  repeat match goal with
  | |- context [?d !! ?k] =>
      lazymatch goal with
      | Hk : d !! k = _ |- _ => fail
      | _ => idtac
      end;
      let Hk := fresh "Hk" in
      assert (d !! k = _) as Hk
        by (apply H; unfold signup_fields, payment_fields, upload_fields;
            repeat constructor);
      rewrite Hk; clear Hk
  end;
  reflexivity.

(** X3. The result of [handler] depends on the event only through [type]
    and the required fields of the validator for that type: two events that
    agree there get the same result, whatever else they hold. *)
Theorem handler_reads_required_fields_only
    (d d' : gmap string pyval) (context : pyval) :
  d !! "type" = d' !! "type" →
  (∀ k, k ∈ fields_read d → d !! k = d' !! k) →
  handler (VDict d) context = handler (VDict d') context.
Proof.
  intros Ht H. unfold handler, fields_read, dict_get in *. rewrite <- Ht.
  destruct (eq_str _ "USER_SIGNUP"); [same_fields H|].
  destruct (eq_str _ "PAYMENT"); [same_fields H|].
  destruct (eq_str _ "FILE_UPLOAD"); [same_fields H|].
  reflexivity.
Qed.

(** *** An event is accepted exactly when it passes every check *)

(** X4. A signup is answered with status "ok" exactly when its three
    fields are present, [user_id] passes [isinstance(user_id, int)],
    [email] is a string [is_valid_email] accepts and [plan] is a string
    whose lower case is "free", "pro" or "edu". *)
Theorem signup_accepted_iff_valid (d : gmap string pyval) (context : pyval) :
  d !! "type" = Some (VStr "USER_SIGNUP") →
  (∃ env, handler (VDict d) context = Returns env ∧ status env = "ok")
  ↔ ∃ user_id email plan,
      d !! "user_id" = Some user_id ∧
      d !! "email" = Some (VStr email) ∧
      d !! "plan" = Some (VStr plan) ∧
      isinstance_int user_id = true ∧
      is_valid_email (VStr email) = Returns true ∧
      PyStr.mem (py_lower plan) (PyStr.lits ["free"; "pro"; "edu"]) = true.
Proof.
  intros Ht. rewrite (handler_signup _ _ Ht). split.
  - intros (env & H & Hs).
    destruct (handle_user_signup_outcome d) as [Hm|u e p ? ? ? Herr|u e p];
      simplify_eq.
    exists u, e, p. split_and!; try done. simpl. by f_equal.
  - intros (u & e & p & Hu & He & Hp & Hint & [= Hmail] & Hplan).
    rewrite (handle_user_signup_valid d u e p) by done. by eexists.
Qed.

(** X5. A payment is answered with status "ok" exactly when its four
    fields are present, [payment_id] is a string, [user_id] passes
    [isinstance(user_id, int)], [amount] is a number that is not [<= 0],
    [currency] is a string whose upper case is "BHD", "USD" or "EUR", and
    [float(amount)] does not overflow. *)
Theorem payment_accepted_iff_valid (d : gmap string pyval) (context : pyval) :
  d !! "type" = Some (VStr "PAYMENT") →
  (∃ env, handler (VDict d) context = Returns env ∧ status env = "ok")
  ↔ ∃ payment_id user_id amount currency x,
      d !! "payment_id" = Some payment_id ∧
      d !! "user_id" = Some user_id ∧
      d !! "amount" = Some amount ∧
      d !! "currency" = Some (VStr currency) ∧
      isinstance_str payment_id = true ∧
      isinstance_int user_id = true ∧
      isinstance_int_float amount = true ∧
      le_int amount 0 = Returns false ∧
      PyStr.mem (py_upper currency) (PyStr.lits ["BHD"; "USD"; "EUR"]) = true ∧
      to_float amount = Returns x.
Proof.
  intros Ht. rewrite (handler_payment _ _ Ht). split.
  - intros (env & H & Hs).
    destruct (handle_payment_outcome d)
      as [Hm|i u a c ? ? ? ? Herr|i u a c y ? ? ? ? ? ? Hamt|i u n c];
      simplify_eq.
    exists i, u, a, c, y. split_and!; try done.
    + by destruct a.
    + destruct a; simpl in *; by f_equal.
  - intros (i & u & a & c & x & Hi & Hu & Ha & Hc & Hstr & Hint & Hnum
            & Hle & Hcur & Hx).
    rewrite (handle_payment_valid d i u a c x); [by eexists|done..| |done|done].
    destruct a; simpl in *; congruence.
Qed.

(** X6. An upload is answered with status "ok" exactly when its four
    fields are present, [file_name] and [bucket] are strings, [size_bytes]
    passes [isinstance(size_bytes, int)] and is not negative, and
    [uploader] is a string [is_valid_email] accepts. *)
Theorem upload_accepted_iff_valid (d : gmap string pyval) (context : pyval) :
  d !! "type" = Some (VStr "FILE_UPLOAD") →
  (∃ env, handler (VDict d) context = Returns env ∧ status env = "ok")
  ↔ ∃ file_name size_bytes bucket uploader,
      d !! "file_name" = Some (VStr file_name) ∧
      d !! "size_bytes" = Some size_bytes ∧
      d !! "bucket" = Some (VStr bucket) ∧
      d !! "uploader" = Some (VStr uploader) ∧
      isinstance_int size_bytes = true ∧
      lt_int size_bytes 0 = Returns false ∧
      is_valid_email (VStr uploader) = Returns true.
Proof.
  intros Ht. rewrite (handler_upload _ _ Ht). split.
  - intros (env & H & Hs).
    destruct (handle_file_upload_outcome d)
      as [Hm|f z b u ? ? ? ? Herr|f z m b u ? ? ? ? Hz Hpos Hmail];
      simplify_eq.
    exists f, z, b, u. split_and!; try done.
    + by destruct z.
    + rewrite (lt_int_int_value _ _ _ Hz). f_equal. by apply Z.ltb_ge.
    + simpl. by f_equal.
  - intros (f & z & b & u & Hf & Hz & Hb & Hu & Hint & Hlt & [= Hmail]).
    assert (∃ n, int_value z = Some n ∧ 0 <= n) as (n & Hn & Hpos).
    { destruct z as [|[]|n| | | |]; simplify_eq/=; eauto with lia. }
    rewrite (handle_file_upload_valid d f z n b u) by done. by eexists.
Qed.

(** *** What an accepted event stores *)

Lemma lstrip_clean s : clean_start (PyStr.lstrip py_isspace s) = true.
Proof.
  induction s as [|c s IH]; simpl; [done|].
  destruct (py_isspace c) eqn:E; [done|]. simpl. by rewrite E.
Qed.

Lemma rstrip_cons sp c s :
  PyStr.rstrip sp (c :: s)
  = match PyStr.rstrip sp s with
    | [] => if sp c then [] else [c]
    | t => c :: t
    end.
Proof. reflexivity. Qed.

Lemma rstrip_clean_start s :
  clean_start s = true → clean_start (PyStr.rstrip py_isspace s) = true.
Proof.
  destruct s as [|c s]; [done|]. rewrite rstrip_cons. cbn [clean_start].
  intros E%negb_true_iff.
  destruct (PyStr.rstrip py_isspace s); rewrite ?E; cbn [clean_start];
    by rewrite E.
Qed.

Lemma rstrip_clean_end s : clean_end (PyStr.rstrip py_isspace s) = true.
Proof.
  induction s as [|c s IH]; [done|].
  rewrite rstrip_cons. destruct (PyStr.rstrip py_isspace s) as [|c' t] eqn:E.
  - destruct (py_isspace c) eqn:Ec; [done|].
    cbn [clean_end]. by rewrite Ec.
  - done.
Qed.

Lemma lstrip_blank s :
  forallb py_isspace s = true → PyStr.lstrip py_isspace s = [].
Proof.
  induction s as [|c s IH]; simpl; [done|].
  intros [-> Hs]%andb_true_iff. auto.
Qed.

(** X9. In the data of any returned envelope, [plan] is "free", "pro" or
    "edu", [currency] is "BHD", "USD" or "EUR", and [storage_class] is
    "STANDARD", "STANDARD_IA" or "GLACIER", whatever the case of the
    submitted values. *)
Theorem stored_values_are_normal (event context : pyval) (env : envelope) :
  handler event context = Returns env →
  (∀ v, data env !! "plan" = Some v →
        v ∈ [VStr "free"; VStr "pro"; VStr "edu"]) ∧
  (∀ v, data env !! "currency" = Some v →
        v ∈ [VStr "BHD"; VStr "USD"; VStr "EUR"]) ∧
  (∀ v, data env !! "storage_class" = Some v →
        v ∈ [VStr "STANDARD"; VStr "STANDARD_IA"; VStr "GLACIER"]).
Proof.
  intros H.
  destruct event as [| | | | | |d];
    try (injection H as <-; split_and!; intros v Hv; by simplify_map_eq).
  pose proof (handler_outcome d context) as Ho. rewrite H in Ho.
  inversion Ho as [|r Ht Hs|r Ht Hp|r Ht Hu]; subst.
  - split_and!; intros v Hv; by simplify_map_eq.
  - inversion Hs as [| |u e p ? ? ? ? ? Hplan]; subst;
      [split_and!; intros v Hv; by simplify_map_eq..|].
    apply mem_elem_of, (list_elem_of_fmap_2 VStr) in Hplan.
    split_and!; intros v Hv; by simplify_map_eq.
  - inversion Hp as [| |i u a c x ? ? ? ? ? ? ? Hcur|]; subst;
      [split_and!; intros v Hv; by simplify_map_eq..|].
    apply mem_elem_of, (list_elem_of_fmap_2 VStr) in Hcur.
    split_and!; intros v Hv; by simplify_map_eq.
  - inversion Hu as [| |f z n b u]; subst;
      [split_and!; intros v Hv; by simplify_map_eq..|].
    split_and!; intros v Hv; simplify_map_eq; try done.
    unfold storage_class_of.
    destruct (n <? 1000000); [by repeat constructor|].
    destruct (n <? 50000000); by repeat constructor.
Qed.

(** X10. The [file_name] in the data of any returned envelope neither
    starts nor ends with whitespace. *)
Theorem stored_file_name_is_stripped
    (event context : pyval) (env : envelope) (file_name : PyStr.pystr) :
  handler event context = Returns env →
  data env !! "file_name" = Some (VStr file_name) →
  clean_start file_name = true ∧ clean_end file_name = true.
Proof.
  intros H Hf.
  destruct event as [| | | | | |d]; try (injection H as <-; by simplify_map_eq).
  pose proof (handler_outcome d context) as Ho. rewrite H in Ho.
  inversion Ho as [|r Ht Hs|r Ht Hp|r Ht Hu]; subst.
  - by simplify_map_eq.
  - inversion Hs; subst; by simplify_map_eq.
  - inversion Hp; subst; by simplify_map_eq.
  - inversion Hu as [| |f z n b u]; subst; simplify_map_eq.
    unfold PyStr.strip. split.
    + apply rstrip_clean_start, lstrip_clean.
    + apply rstrip_clean_end.
Qed.

(** X11. The upload validator puts no condition on the content of
    [file_name] and [bucket]: a name made of whitespace only, or empty, is
    accepted and stored as the empty string. *)
Theorem blank_file_name_is_accepted
    (d : gmap string pyval) (context size_bytes : pyval)
    (file_name bucket uploader : PyStr.pystr) (n : Z) :
  d !! "type" = Some (VStr "FILE_UPLOAD") →
  d !! "file_name" = Some (VStr file_name) →
  d !! "size_bytes" = Some size_bytes →
  d !! "bucket" = Some (VStr bucket) →
  d !! "uploader" = Some (VStr uploader) →
  int_value size_bytes = Some n →
  0 <= n →
  is_valid_email (VStr uploader) = Returns true →
  forallb py_isspace file_name = true →
  ∃ env, handler (VDict d) context = Returns env ∧
         status env = "ok" ∧
         data env !! "file_name" = Some (VStr "").
Proof.
  intros Ht Hf Hz Hb Hu Hn Hpos [= Hmail] Hblank.
  rewrite (handler_upload _ _ Ht).
  rewrite (handle_file_upload_valid d file_name size_bytes n bucket uploader)
    by done.
  eexists. split_and!; [done..|]. simpl.
  unfold PyStr.strip. by rewrite lstrip_blank.
Qed.

(** *** The order of the errors *)

Lemma signup_errors_sublist user_id email plan :
  signup_errors user_id email plan
  `sublist_of` ["user_id must be int"; "Invalid email"; "Invalid plan"].
Proof.
  unfold signup_errors, append_if.
  destruct (bad_plan plan), (bad_email email),
    (negb (isinstance_int user_id)); solve_sublist.
Qed.

Lemma payment_errors_sublist payment_id user_id amount currency :
  payment_errors payment_id user_id amount currency
  `sublist_of` ["payment_id must be string"; "user_id must be int";
                "amount must be positive number"; "Invalid currency"].
Proof.
  unfold payment_errors, append_if.
  destruct (bad_currency currency), (bad_amount amount),
    (negb (isinstance_int user_id)), (negb (isinstance_str payment_id));
    solve_sublist.
Qed.

Lemma upload_errors_sublist file_name size_bytes bucket uploader :
  upload_errors file_name size_bytes bucket uploader
  `sublist_of` ["file_name must be string"; "size_bytes must be >= 0";
                "bucket must be string"; "Invalid uploader email"].
Proof.
  unfold upload_errors, append_if.
  destruct (bad_email uploader), (negb (isinstance_str bucket)),
    (bad_size size_bytes), (negb (isinstance_str file_name));
    solve_sublist.
Qed.

Lemma handler_errors_in_order event context env :
  handler event context = Returns env →
  ∃ l, l ∈ error_orders ∧ errors env `sublist_of` l.
Proof.
  intros H. rewrite error_orders_eq.
  destruct event as [| | | | | |d];
    try (injection H as <-; pick_order 0 sublist_same).
  pose proof (handler_outcome d context) as Ho. rewrite H in Ho.
  inversion Ho as [|r Ht Hs|r Ht Hp|r Ht Hu]; subst.
  - pick_order 1 sublist_same.
  - inversion Hs; subst; simpl.
    + pick_order 2 (missing_errors_sublist signup_fields).
    + pick_order 5 signup_errors_sublist.
    + pick_order 0 (sublist_nil_l (A:=string)).
  - inversion Hp; subst; simpl.
    + pick_order 3 (missing_errors_sublist payment_fields).
    + pick_order 6 payment_errors_sublist.
    + pick_order 0 (sublist_nil_l (A:=string)).
  - inversion Hu; subst; simpl.
    + pick_order 4 (missing_errors_sublist upload_fields).
    + pick_order 7 upload_errors_sublist.
    + pick_order 0 (sublist_nil_l (A:=string)).
Qed.

(** X12. The errors of any returned envelope are some of the messages of
    one phase of one validator (or one structural error), in the order the
    source appends them: messages of the two phases never mix, no message
    occurs twice, and there are at most four. *)
Theorem errors_keep_their_order (event context : pyval) (env : envelope) :
  handler event context = Returns env →
  (∃ l, l ∈ error_orders ∧ errors env `sublist_of` l) ∧
  NoDup (errors env) ∧
  (length (errors env) ≤ 4)%nat.
Proof.
  intros H.
  destruct (handler_errors_in_order _ _ _ H) as (l & Hl & Hsub).
  destruct (error_orders_bounded l Hl) as [Hnd Hlen].
  split_and!.
  - eauto.
  - by eapply sublist_NoDup.
  - apply sublist_length in Hsub. lia.
Qed.

(** *** Amounts that are no finite number *)

(** X13. The amount check [amount <= 0] does not reject NaN or positive
    infinity: a payment that is valid otherwise is accepted, with [amount],
    [fee] and [net_amount] all NaN for NaN, and with infinite [amount] and
    [fee] and a NaN [net_amount] for infinity. *)
Theorem not_finite_amounts_are_accepted
    (d : gmap string pyval) (context payment_id user_id : pyval)
    (currency : PyStr.pystr) :
  d !! "type" = Some (VStr "PAYMENT") →
  d !! "payment_id" = Some payment_id →
  d !! "user_id" = Some user_id →
  d !! "currency" = Some (VStr currency) →
  isinstance_str payment_id = true →
  isinstance_int user_id = true →
  PyStr.mem (py_upper currency) (PyStr.lits ["BHD"; "USD"; "EUR"]) = true →
  (d !! "amount" = Some (VFloat S754_nan) →
   handler (VDict d) context
   = Returns
       {| status := "ok";
          message := "Payment processed";
          data := {[ "payment_id" := payment_id;
                     "user_id" := user_id;
                     "amount" := VFloat S754_nan;
                     "currency" := VStr (py_upper currency);
                     "fee" := VFloat S754_nan;
                     "net_amount" := VFloat S754_nan ]};
          errors := [] |}) ∧
  (d !! "amount" = Some (VFloat (S754_infinity false)) →
   handler (VDict d) context
   = Returns
       {| status := "ok";
          message := "Payment processed";
          data := {[ "payment_id" := payment_id;
                     "user_id" := user_id;
                     "amount" := VFloat (S754_infinity false);
                     "currency" := VStr (py_upper currency);
                     "fee" := VFloat (S754_infinity false);
                     "net_amount" := VFloat S754_nan ]};
          errors := [] |}).
Proof.
  intros Ht Hi Hu Hc Hstr Hint Hcur.
  rewrite (handler_payment _ _ Ht). split; intros Ha.
  - by rewrite (handle_payment_valid d payment_id user_id
                  (VFloat S754_nan) currency S754_nan).
  - by rewrite (handle_payment_valid d payment_id user_id
                  (VFloat (S754_infinity false)) currency
                  (S754_infinity false)).
Qed.

(** *** Exceptions *)

(** X14. [handler] raises an exception exactly on a payment that passes
    every check with an integer [amount] that [float] cannot hold, and the
    exception is [OverflowError]; on every other event it returns an
    envelope. *)
Theorem handler_raises_iff_overflow (event context : pyval) :
  ((∃ e, handler event context = Raises e)
   ↔ ∃ d payment_id user_id n currency,
       event = VDict d ∧
       d !! "type" = Some (VStr "PAYMENT") ∧
       d !! "payment_id" = Some payment_id ∧
       d !! "user_id" = Some user_id ∧
       d !! "amount" = Some (VInt n) ∧
       d !! "currency" = Some (VStr currency) ∧
       isinstance_str payment_id = true ∧
       isinstance_int user_id = true ∧
       0 < n ∧
       PyStr.mem (py_upper currency) (PyStr.lits ["BHD"; "USD"; "EUR"]) = true ∧
       to_float (VInt n) = Raises OverflowError) ∧
  (∀ e, handler event context = Raises e → e = OverflowError).
Proof.
  split; [split|].
  - intros [e H]. destruct event as [| | | | | |d]; try discriminate.
    pose proof (handler_outcome d context) as Ho. rewrite H in Ho.
    inversion Ho as [|r Ht Hs|r Ht Hp|r Ht Hu]; subst.
    + inversion Hs.
    + inversion Hp; subst. eauto 20.
    + inversion Hu.
  - intros (d & i & u & n & c & -> & Ht & Hi & Hu & Ha & Hc & Hstr & Hint
            & Hn & Hcur & Hx).
    exists OverflowError. rewrite (handler_payment _ _ Ht).
    by eapply handle_payment_overflow.
  - intros e H. by apply handler_raises in H as [-> _].
Qed.

Lemma handler_raises_amount event context e :
  handler event context = Raises e →
  ∃ d n, event = VDict d ∧ d !! "amount" = Some (VInt n) ∧ 0 < n ∧
         to_float (VInt n) = Raises OverflowError.
Proof.
  intros H. destruct event as [| | | | | |d]; try discriminate.
  pose proof (handler_outcome d context) as Ho. rewrite H in Ho.
  inversion Ho as [|r Ht Hs|r Ht Hp|r Ht Hu]; subst.
  - inversion Hs.
  - inversion Hp; subst. eauto 10.
  - inversion Hu.
Qed.

(** X15. [handler] returns an envelope, and raises nothing, on every event
    whose [amount] is not an integer of [2^53] or more: integers below hold
    exactly in a float. *)
Theorem handler_returns_on_safe_integers (event context : pyval) :
  (∀ d n, event = VDict d → d !! "amount" = Some (VInt n) → n < 2 ^ 53) →
  ∃ env, handler event context = Returns env.
Proof.
  intros Hsafe. destruct (handler event context) as [env|e] eqn:H; [eauto|].
  apply handler_raises_amount in H as (d & n & -> & Ha & Hpos & Hx).
  destruct (to_float_small n) as [x Hx']; [|congruence].
  split; [done|]. by eapply Hsafe.
Qed.

(** *** Letter case *)

(** X17. Two payments that differ only in the letter case of [currency]
    get the same result. *)
Theorem payment_ignores_case
    (d d' : gmap string pyval) (context : pyval) (currency currency' : PyStr.pystr) :
  d !! "type" = Some (VStr "PAYMENT") →
  d' !! "type" = Some (VStr "PAYMENT") →
  d !! "payment_id" = d' !! "payment_id" →
  d !! "user_id" = d' !! "user_id" →
  d !! "amount" = d' !! "amount" →
  d !! "currency" = Some (VStr currency) →
  d' !! "currency" = Some (VStr currency') →
  py_upper currency = py_upper currency' →
  handler (VDict d) context = handler (VDict d') context.
Proof.
  intros Ht Ht' Hi Hu Ha Hc Hc' Hup.
  rewrite (handler_payment _ _ Ht), (handler_payment _ _ Ht').
  unfold handle_payment, check_missing, contains, getitem.
  cbn [fold_left]. rewrite <- Hi, <- Hu, <- Ha, Hc, Hc'.
  destruct (d !! "payment_id"), (d !! "user_id"), (d !! "amount");
    cbn [negb append_if truthy app mbind exc_bind por isinstance_str
           str_upper str_method];
    try reflexivity.
  by rewrite Hup.
Qed.

(** *** The sign of the stored amounts *)

(** X19. The [amount] and the [fee] in the data of any returned envelope
    are never negative. *)
Theorem stored_amount_and_fee_are_not_negative
    (event context : pyval) (env : envelope) :
  handler event context = Returns env →
  (∀ x, data env !! "amount" = Some (VFloat x) → is_negative x = false) ∧
  (∀ x, data env !! "fee" = Some (VFloat x) → is_negative x = false).
Proof.
  intros H.
  destruct event as [| | | | | |d];
    try (injection H as <-; split; intros ? Hx; simpl in Hx;
         by simplify_map_eq).
  pose proof (handler_outcome d context) as Ho. rewrite H in Ho.
  inversion Ho as [|r Ht Hs|r Ht Hp|r Ht Hu]; subst.
  - split; intros x Hx; simpl in Hx; by simplify_map_eq.
  - inversion Hs; subst; split; intros x Hx; simpl in Hx; by simplify_map_eq.
  - inversion Hp as [| |i u a c y ? ? ? ? ? ? Hamt ? Hy|]; subst;
      [split; intros x Hx; simpl in Hx; by simplify_map_eq..|].
    pose proof (to_float_sign _ _ Hamt Hy) as Hsign.
    split; intros x Hx; simpl in Hx; simplify_map_eq.
    + by apply round_sign.
    + apply round_sign, mul_sign; [by apply round_sign | done].
  - inversion Hu; subst; split; intros x Hx; simpl in Hx; by simplify_map_eq.
Qed.

(** *** Every failed check is reported *)

(** X20. The second phase of the signup validator reports every failed
    check: when the three fields are present and a check fails, the event
    is rejected with empty data, and the errors hold the message of a
    check exactly when that check fails. *)
Theorem signup_reports_each_failed_check
    (d : gmap string pyval) (context user_id email plan : pyval) :
  d !! "type" = Some (VStr "USER_SIGNUP") →
  d !! "user_id" = Some user_id →
  d !! "email" = Some email →
  d !! "plan" = Some plan →
  isinstance_int user_id = false ∨ bad_email email = true ∨
    bad_plan plan = true →
  ∃ env,
    handler (VDict d) context = Returns env ∧
    status env = "error" ∧
    data env = ∅ ∧
    ("user_id must be int" ∈ errors env ↔ isinstance_int user_id = false) ∧
    ("Invalid email" ∈ errors env ↔ bad_email email = true) ∧
    ("Invalid plan" ∈ errors env ↔ bad_plan plan = true).
Proof.
  intros Ht Hu He Hp Hbad.
  rewrite (handler_signup _ _ Ht).
  rewrite (handle_user_signup_rejected d user_id email plan); try done.
  - eexists. split; [reflexivity|]. split; [reflexivity|].
    split; [reflexivity|]. cbn [errors error_response].
    unfold signup_errors.
    rewrite !elem_of_append_if, !elem_of_nil, !negb_true_iff.
    split_and!; intuition discriminate.
  - apply truthy_true. unfold signup_errors. rewrite !truthy_append_if.
    destruct Hbad as [->|[->| ->]]; simpl; by rewrite ?orb_true_r.
Qed.

(** X21. The second phase of the upload validator reports every failed
    check: when the four fields are present and a check fails, the event
    is rejected with empty data, and the errors hold the message of a
    check exactly when that check fails; a [size_bytes] that is a float or
    a string fails its check whatever its value. *)
Theorem upload_reports_each_failed_check
    (d : gmap string pyval) (context file_name size_bytes bucket uploader : pyval) :
  d !! "type" = Some (VStr "FILE_UPLOAD") →
  d !! "file_name" = Some file_name →
  d !! "size_bytes" = Some size_bytes →
  d !! "bucket" = Some bucket →
  d !! "uploader" = Some uploader →
  isinstance_str file_name = false ∨ bad_size size_bytes = true ∨
    isinstance_str bucket = false ∨ bad_email uploader = true →
  ∃ env,
    handler (VDict d) context = Returns env ∧
    status env = "error" ∧
    data env = ∅ ∧
    ("file_name must be string" ∈ errors env
     ↔ isinstance_str file_name = false) ∧
    ("size_bytes must be >= 0" ∈ errors env ↔ bad_size size_bytes = true) ∧
    ("bucket must be string" ∈ errors env ↔ isinstance_str bucket = false) ∧
    ("Invalid uploader email" ∈ errors env ↔ bad_email uploader = true) ∧
    (isinstance_int size_bytes = false → bad_size size_bytes = true).
Proof.
  intros Ht Hf Hz Hb Hu Hbad.
  rewrite (handler_upload _ _ Ht).
  rewrite (handle_file_upload_rejected d file_name size_bytes bucket uploader);
    try done.
  - eexists. split; [reflexivity|]. split; [reflexivity|].
    split; [reflexivity|]. cbn [errors error_response].
    unfold upload_errors.
    rewrite !elem_of_append_if, !elem_of_nil, !negb_true_iff.
    split_and!; [intuition discriminate..|].
    by destruct size_bytes.
  - apply truthy_true. unfold upload_errors. rewrite !truthy_append_if.
    destruct Hbad as [->|[->|[->| ->]]]; simpl; by rewrite ?orb_true_r.
Qed.

(** *** Accepted payments *)

(** X22. A valid payment whose amount [float] can convert (a float, a
    bool, or an integer in the range of a float) is accepted with message
    "Payment processed"; the data keep [payment_id] and [user_id], hold
    [currency.upper()], [amount] as [round(float(amount), 3)], [fee] as
    [round(amount * 0.02, 3)] and [net_amount] as [round(amount - fee, 3)],
    where [round] rounds half to even. An amount of 100 in "usd" gives
    100.0, 2.0, 98.0 and "USD". *)
Theorem payment_success :
  (∀ (d : gmap string pyval) (context payment_id user_id amount : pyval)
     (currency : PyStr.pystr) (x : PyFloat.float),
     d !! "type" = Some (VStr "PAYMENT") →
     d !! "payment_id" = Some payment_id →
     d !! "user_id" = Some user_id →
     d !! "amount" = Some amount →
     d !! "currency" = Some (VStr currency) →
     isinstance_str payment_id = true →
     isinstance_int user_id = true →
     isinstance_int_float amount = true →
     le_int amount 0 = Returns false →
     PyStr.mem (py_upper currency) (PyStr.lits ["BHD"; "USD"; "EUR"]) = true →
     to_float amount = Returns x →
     let amount' := PyFloat.round x 3 in
     let fee := PyFloat.round (PyFloat.mul amount' (PyFloat.of_decimal 2 2)) 3 in
     let net_amount := PyFloat.round (PyFloat.sub amount' fee) 3 in
     handler (VDict d) context
     = Returns
         {| status := "ok";
            message := "Payment processed";
            data := {[ "payment_id" := payment_id;
                       "user_id" := user_id;
                       "amount" := VFloat amount';
                       "currency" := VStr (py_upper currency);
                       "fee" := VFloat fee;
                       "net_amount" := VFloat net_amount ]};
            errors := [] |}) ∧
  (TextLaws T →
   handler accepted_payment VNone
   = Returns
       {| status := "ok";
          message := "Payment processed";
          data := {[ "payment_id" := VStr "p1";
                     "user_id" := VInt 1;
                     "amount" := VFloat (PyFloat.of_Z 100);
                     "currency" := VStr "USD";
                     "fee" := VFloat (PyFloat.of_Z 2);
                     "net_amount" := VFloat (PyFloat.of_Z 98) ]};
          errors := [] |}).
Proof.
  split.
  - intros d context payment_id user_id amount currency x
      Ht Hi Hu Ha Hc Hstr Hint Hnum Hle Hcur Hx. cbv zeta.
    rewrite (handler_payment _ _ Ht).
    rewrite (handle_payment_valid d payment_id user_id amount currency x);
      try done.
    destruct amount; simpl in *; congruence.
  - intros L. unfold accepted_payment.
    rewrite handler_payment by reflexivity.
    rewrite (handle_payment_valid _ (VStr "p1") (VInt 1) (VInt 100) "usd"
               (PyFloat.of_Z 100));
      try (on_ascii; reflexivity).
    unfold payment_ok. on_ascii. by vm_compute.
Qed.

(** *** Stripping twice *)

Lemma lstrip_of_clean s :
  clean_start s = true → PyStr.lstrip py_isspace s = s.
Proof.
  destruct s as [|c s]; simpl; [done|]. by intros ->%negb_true_iff.
Qed.

Lemma rstrip_idem sp s :
  PyStr.rstrip sp (PyStr.rstrip sp s) = PyStr.rstrip sp s.
Proof.
  induction s as [|c s IH]; [done|].
  rewrite rstrip_cons. destruct (PyStr.rstrip sp s) as [|c' t] eqn:E.
  - destruct (sp c) eqn:Ec; [done|].
    rewrite rstrip_cons. cbn [PyStr.rstrip]. by rewrite Ec.
  - rewrite rstrip_cons, IH. reflexivity.
Qed.

Lemma strip_idem s :
  PyStr.strip py_isspace (PyStr.strip py_isspace s)
  = PyStr.strip py_isspace s.
Proof.
  unfold PyStr.strip.
  rewrite (lstrip_of_clean (PyStr.rstrip _ _))
    by apply rstrip_clean_start, lstrip_clean.
  apply rstrip_idem.
Qed.

(** X23. The [file_name] in the data of any returned envelope is left
    unchanged by [strip]: stripping is idempotent. *)
Theorem stored_file_name_is_fixed_by_strip
    (event context : pyval) (env : envelope) (file_name : PyStr.pystr) :
  handler event context = Returns env →
  data env !! "file_name" = Some (VStr file_name) →
  PyStr.strip py_isspace file_name = file_name.
Proof.
  intros H Hf.
  destruct event as [| | | | | |d]; try (injection H as <-; by simplify_map_eq).
  pose proof (handler_outcome d context) as Ho. rewrite H in Ho.
  inversion Ho as [|r Ht Hs|r Ht Hp|r Ht Hu]; subst.
  - by simplify_map_eq.
  - inversion Hs; subst; by simplify_map_eq.
  - inversion Hp; subst; by simplify_map_eq.
  - inversion Hu as [| |f z n b u]; subst; simplify_map_eq.
    apply strip_idem.
Qed.

End Properties.

(** ** The properties on given events

    The statements below run the handler on given ASCII events, with the
    ASCII tables as text model. *)

#[local] Existing Instance ascii_text.

(** C1, as the specification states it, fails: a signup whose [user_id] is
    [True] is accepted, and no "user_id must be int" is reported (for any
    tables of the interpreter, by [signup_by_bool_accepted]). *)
Lemma booleans_rejected_counterexample :
  ∃ env, handler signup_by_bool VNone = Returns env ∧
         status env = "ok" ∧
         data env !! "user_id" = Some (VBool true) ∧
         "user_id must be int" ∉ errors env.
Proof.
  exists (signup_ok (VBool true) "a@b.com" "pro").
  split_and!; [apply signup_by_bool_accepted, ascii_text_laws | done | done |].
  simpl. apply not_elem_of_nil.
Qed.

Lemma booleans_pass_int_checks_witness :
  "user_id must be int" ∉ errors (error_response ["Invalid plan"]).
Proof.
  refine (proj1
            (booleans_pass_int_checks
               {[ "type" := VStr "USER_SIGNUP"; "user_id" := VBool false;
                  "email" := VStr "a@b.com"; "plan" := VStr "gold" ]}
               VNone (error_response ["Invalid plan"]) false _) _);
    reflexivity.
Defined.

Lemma envelope_invariant_witness :
  (status (error_response ["Invalid JSON structure"]) = "ok"
   ↔ errors (error_response ["Invalid JSON structure"]) = []) ∧
  (data (error_response ["Invalid JSON structure"]) = ∅
   ↔ status (error_response ["Invalid JSON structure"]) = "error") ∧
  (status (error_response ["Invalid JSON structure"]) = "error" →
   message (error_response ["Invalid JSON structure"]) = "Validation failed").
Proof.
  apply (envelope_invariant (VList [VInt 1; VStr "two"]) VNone).
  reflexivity.
Defined.

Lemma structural_errors_witness :
  handler (VStr "PAYMENT") VNone
  = Returns (error_response ["Invalid JSON structure"]) ∧
  handler (VDict {[ "type" := VStr "REFUND"; "amount" := VInt 5 ]}) VNone
  = Returns (error_response ["Unknown event type"]).
Proof.
  split.
  - apply (proj1 (structural_errors (VStr "PAYMENT") VNone)).
    intros d. discriminate.
  - apply (proj2 (structural_errors _ VNone)
             {[ "type" := VStr "REFUND"; "amount" := VInt 5 ]} eq_refl).
    intros H.
    repeat (apply elem_of_cons in H as [H|H]; [discriminate H|]).
    by apply elem_of_nil in H.
Defined.

Lemma signup_missing_fields_witness :
  handler
    (VDict {[ "type" := VStr "USER_SIGNUP"; "user_id" := VStr "seven";
              "plan" := VInt 3 ]}) VNone
  = Returns (error_response ["Missing field: email"]).
Proof.
  refine (proj1 (proj1 signup_missing_fields _ VNone _ _)).
  - reflexivity.
  - exists "email". split; [by repeat constructor | reflexivity].
Defined.

Lemma payment_accumulates_errors_witness :
  (∃ env,
     handler
       (VDict {[ "type" := VStr "PAYMENT"; "payment_id" := VStr "p9";
                 "user_id" := VNone; "amount" := VBool false;
                 "currency" := VStr "eur" ]}) VNone
     = Returns env ∧
     status env = "error" ∧
     ("payment_id must be string" ∈ errors env
      ↔ isinstance_str (VStr "p9") = false) ∧
     ("user_id must be int" ∈ errors env ↔ isinstance_int VNone = false) ∧
     ("amount must be positive number" ∈ errors env
      ↔ bad_amount (VBool false) = true) ∧
     ("Invalid currency" ∈ errors env ↔ bad_currency (VStr "eur") = true)) ∧
  ∃ env,
    handler rejected_payment VNone = Returns env ∧
    status env = "error" ∧
    length (errors env) = 4%nat ∧
    errors env = ["payment_id must be string"; "user_id must be int";
                  "amount must be positive number"; "Invalid currency"].
Proof.
  split.
  - refine (proj1 payment_accumulates_errors _ VNone (VStr "p9") VNone
              (VBool false) (VStr "eur") _ _ _ _ _ _); try reflexivity.
    right. left. reflexivity.
  - exact (proj2 payment_accumulates_errors ascii_text_laws).
Defined.

Lemma overflow_escapes_handler_witness :
  handler oversized_payment VNone = Raises OverflowError.
Proof.
  exact (proj1 (proj2 (overflow_escapes_handler ascii_text_laws))).
Defined.

Lemma storage_class_by_size_witness :
  (∃ env,
     handler
       (VDict {[ "type" := VStr "FILE_UPLOAD"; "file_name" := VStr "a.bin";
                 "size_bytes" := VBool true; "bucket" := VStr "B";
                 "uploader" := VStr "u@h.io" ]}) VNone
     = Returns env ∧
     status env = "ok" ∧
     data env !! "size_bytes" = Some (VBool true) ∧
     data env !! "storage_class" = Some (VStr "STANDARD")) ∧
  storage_class_in (handler (upload_of_size 50000000) VNone)
  = Some (VStr "GLACIER").
Proof.
  split.
  - refine (proj1 storage_class_by_size _ VNone (VBool true) "a.bin" "B"
              "u@h.io" 1 _ _ _ _ _ _ _ _); try reflexivity. lia.
  - exact (proj2 (proj2 (proj2 (proj2 storage_class_by_size ascii_text_laws)))).
Defined.

Lemma signup_success_witness :
  handler
    (VDict {[ "type" := VStr "USER_SIGNUP"; "user_id" := VBool true;
              "email" := VStr "Ann@Example.org"; "plan" := VStr "Edu" ]})
    (VStr "invocation-7")
  = Returns
      {| status := "ok";
         message := "Signup processed";
         data := {[ "user_id" := VBool true;
                    "email" := VStr "ann@example.org";
                    "plan" := VStr "edu";
                    "welcome_email_subject" :=
                      VStr "Welcome to the edu plan!" ]};
         errors := [] |} ∧
  handler happy_signup VNone
  = Returns
      {| status := "ok";
         message := "Signup processed";
         data := {[ "user_id" := VInt 1;
                    "email" := VStr "a@b.com";
                    "plan" := VStr "free";
                    "welcome_email_subject" :=
                      VStr "Welcome to the free plan!" ]};
         errors := [] |}.
Proof.
  split.
  - refine (eq_trans
              (proj1 signup_success _ (VStr "invocation-7") (VBool true)
                 "Ann@Example.org" "Edu" _ _ _ _ _ _ _) _);
      reflexivity.
  - exact (proj2 signup_success ascii_text_laws).
Defined.

Lemma presence_is_key_membership_witness :
  ("Missing field: user_id" ∉ errors (error_response ["user_id must be int"])) ∧
  ∃ env,
    handler (VDict signup_with_null_id) VNone = Returns env ∧
    status env = "error" ∧
    "user_id must be int" ∈ errors env ∧
    "Missing field: user_id" ∉ errors env.
Proof.
  split.
  - refine (proj1 presence_is_key_membership signup_with_null_id VNone VNone
              (error_response ["user_id must be int"]) "user_id" _ _);
      reflexivity.
  - refine (proj2 presence_is_key_membership signup_with_null_id VNone
              "USER_SIGNUP" "user_id" "user_id must be int"
              [ ("user_id", "user_id must be int");
                ("email", "Invalid email");
                ("plan", "Invalid plan") ] _ _ _ _ _).
    + apply list_elem_of_here.
    + apply list_elem_of_here.
    + reflexivity.
    + repeat constructor; eexists; reflexivity.
    + reflexivity.
Defined.

Lemma valid_email_shape_witness :
  is_valid_email (VStr "ann@mail.example.org") = Returns true.
Proof.
  apply (proj2 (valid_email_shape _)).
  exists (PyStr.lit "ann"), (PyStr.lit "mail.example"), (PyStr.lit "org").
  split_and!; [split; [discriminate | reflexivity]..|].
  left. reflexivity.
Defined.

Lemma handler_reads_required_fields_only_witness :
  handler (VDict (<["comment" := VList [VInt 1]]> signup_with_null_id)) VNone
  = handler (VDict signup_with_null_id) VNone.
Proof.
  apply handler_reads_required_fields_only; [reflexivity|].
  intros k Hk. change (k ∈ ["user_id"; "email"; "plan"]) in Hk.
  repeat (apply elem_of_cons in Hk as [->|Hk]; [reflexivity|]).
  by apply elem_of_nil in Hk.
Defined.

Lemma signup_accepted_iff_valid_witness :
  ¬ ∃ env, handler (VDict signup_with_null_id) VNone = Returns env ∧
           status env = "ok".
Proof.
  intros H.
  apply (proj1 (signup_accepted_iff_valid signup_with_null_id VNone eq_refl))
    in H as (u & e & p & Hu & _ & _ & Hint & _).
  injection Hu as <-. discriminate Hint.
Defined.

Lemma payment_accepted_iff_valid_witness :
  ¬ ∃ env,
      handler (VDict (payment_of_amount (VInt (2 ^ 1024)))) VNone
      = Returns env ∧
      status env = "ok".
Proof.
  intros H.
  apply (proj1 (payment_accepted_iff_valid
                  (payment_of_amount (VInt (2 ^ 1024))) VNone eq_refl))
    in H as (i & u & a & c & x & _ & _ & Ha & _ & _ & _ & _ & _ & _ & Hx).
  injection Ha as <-. discriminate Hx.
Defined.

Lemma upload_accepted_iff_valid_witness :
  ∃ env, handler (VDict (upload_of_name "")) VNone = Returns env ∧
         status env = "ok".
Proof.
  refine (proj2 (upload_accepted_iff_valid (upload_of_name "") VNone eq_refl) _).
  exists (PyStr.lit ""), (VInt 0), (PyStr.lit "Logs"), (PyStr.lit "x@y.z").
  split_and!; reflexivity.
Defined.

Lemma stored_values_are_normal_witness :
  VStr (py_lower "PRO") ∈ [VStr "free"; VStr "pro"; VStr "edu"].
Proof.
  refine (proj1 (stored_values_are_normal
                   (VDict {[ "type" := VStr "USER_SIGNUP"; "user_id" := VInt 5;
                             "email" := VStr "Bo@Site.Net";
                             "plan" := VStr "PRO" ]})
                   VNone (signup_ok (VInt 5) "Bo@Site.Net" "PRO") _) _ _);
    reflexivity.
Defined.

Lemma stored_file_name_is_stripped_witness :
  clean_start (PyStr.strip py_isspace " a b ") = true ∧
  clean_end (PyStr.strip py_isspace " a b ") = true.
Proof.
  apply (stored_file_name_is_stripped (VDict (upload_of_name " a b ")) VNone
           (upload_ok " a b " (VInt 0) 0 "Logs" "x@y.z"));
    reflexivity.
Defined.

Lemma blank_file_name_is_accepted_witness :
  ∃ env, handler (VDict (upload_of_name "   ")) VNone = Returns env ∧
         status env = "ok" ∧
         data env !! "file_name" = Some (VStr "").
Proof.
  apply (blank_file_name_is_accepted (upload_of_name "   ") VNone (VInt 0)
           "   " "Logs" "x@y.z" 0); first [reflexivity | lia].
Defined.

Lemma errors_keep_their_order_witness :
  (∃ l, l ∈ error_orders ∧
        errors (error_response ["user_id must be int"]) `sublist_of` l) ∧
  NoDup (errors (error_response ["user_id must be int"])) ∧
  (length (errors (error_response ["user_id must be int"])) ≤ 4)%nat.
Proof.
  apply (errors_keep_their_order (VDict signup_with_null_id) VNone).
  reflexivity.
Defined.

Lemma not_finite_amounts_are_accepted_witness :
  handler (VDict (payment_of_amount (VFloat S754_nan))) VNone
  = Returns
      {| status := "ok";
         message := "Payment processed";
         data := {[ "payment_id" := VStr "p2";
                    "user_id" := VInt 2;
                    "amount" := VFloat S754_nan;
                    "currency" := VStr "EUR";
                    "fee" := VFloat S754_nan;
                    "net_amount" := VFloat S754_nan ]};
         errors := [] |}.
Proof.
  refine (proj1 (not_finite_amounts_are_accepted
                   (payment_of_amount (VFloat S754_nan)) VNone
                   (VStr "p2") (VInt 2) "EUR" _ _ _ _ _ _ _) _);
    reflexivity.
Defined.

Lemma handler_raises_iff_overflow_witness :
  ∃ e, handler (VDict (payment_of_amount (VInt (2 ^ 1024)))) VNone = Raises e.
Proof.
  apply (proj2 (proj1 (handler_raises_iff_overflow _ VNone))).
  exists (payment_of_amount (VInt (2 ^ 1024))), (VStr "p2"), (VInt 2),
    (2 ^ 1024), (PyStr.lit "EUR").
  split_and!; reflexivity.
Defined.

Lemma handler_returns_on_safe_integers_witness :
  ∃ env,
    handler (VDict (payment_of_amount (VInt (2 ^ 53 - 1)))) VNone = Returns env.
Proof.
  apply handler_returns_on_safe_integers.
  intros d n [= <-] [= <-]. reflexivity.
Defined.

Lemma payment_ignores_case_witness :
  handler (VDict (payment_of_amount (VInt 3))) VNone
  = handler (VDict (<["currency" := VStr "eUr"]> (payment_of_amount (VInt 3))))
      VNone.
Proof.
  apply (payment_ignores_case _ _ VNone "EUR" "eUr"); reflexivity.
Defined.

Lemma stored_amount_and_fee_are_not_negative_witness :
  is_negative
    (PyFloat.round
       (PyFloat.mul (PyFloat.round (PyFloat.of_Z 3) 3) fee_rate) 3)
  = false.
Proof.
  refine (proj2 (stored_amount_and_fee_are_not_negative
                   (VDict (payment_of_amount (VInt 3))) VNone
                   (payment_ok (VStr "p2") (VInt 2) (PyFloat.of_Z 3) "EUR") _)
            _ _);
    reflexivity.
Defined.

Lemma signup_reports_each_failed_check_witness :
  ∃ env,
    handler (VDict signup_with_null_id) VNone = Returns env ∧
    status env = "error" ∧
    data env = ∅ ∧
    ("user_id must be int" ∈ errors env ↔ isinstance_int VNone = false) ∧
    ("Invalid email" ∈ errors env ↔ bad_email (VStr "a@b.com") = true) ∧
    ("Invalid plan" ∈ errors env ↔ bad_plan (VStr "free") = true).
Proof.
  apply (signup_reports_each_failed_check signup_with_null_id VNone
           VNone (VStr "a@b.com") (VStr "free")); try reflexivity.
  left. reflexivity.
Defined.

Lemma upload_reports_each_failed_check_witness :
  ∃ env,
    handler
      (VDict (<["size_bytes" := VFloat (PyFloat.of_Z 5)]> (upload_of_name "a")))
      VNone
    = Returns env ∧
    status env = "error" ∧
    data env = ∅ ∧
    ("file_name must be string" ∈ errors env
     ↔ isinstance_str (VStr "a") = false) ∧
    ("size_bytes must be >= 0" ∈ errors env
     ↔ bad_size (VFloat (PyFloat.of_Z 5)) = true) ∧
    ("bucket must be string" ∈ errors env
     ↔ isinstance_str (VStr "Logs") = false) ∧
    ("Invalid uploader email" ∈ errors env
     ↔ bad_email (VStr "x@y.z") = true) ∧
    (isinstance_int (VFloat (PyFloat.of_Z 5)) = false →
     bad_size (VFloat (PyFloat.of_Z 5)) = true).
Proof.
  apply (upload_reports_each_failed_check
           (<["size_bytes" := VFloat (PyFloat.of_Z 5)]> (upload_of_name "a"))
           VNone (VStr "a") (VFloat (PyFloat.of_Z 5)) (VStr "Logs")
           (VStr "x@y.z")); try reflexivity.
  right. left. reflexivity.
Defined.

Lemma payment_success_witness :
  handler
    (VDict {[ "type" := VStr "PAYMENT"; "payment_id" := VStr "inv-3";
              "user_id" := VInt 42;
              "amount" := VFloat (PyFloat.of_decimal 625 4);
              "currency" := VStr "Bhd" ]}) VNone
  = Returns
      {| status := "ok";
         message := "Payment processed";
         data := {[ "payment_id" := VStr "inv-3";
                    "user_id" := VInt 42;
                    "amount" := VFloat (PyFloat.of_decimal 62 3);
                    "currency" := VStr "BHD";
                    "fee" := VFloat (PyFloat.of_decimal 1 3);
                    "net_amount" := VFloat (PyFloat.of_decimal 61 3) ]};
         errors := [] |} ∧
  handler accepted_payment VNone
  = Returns
      {| status := "ok";
         message := "Payment processed";
         data := {[ "payment_id" := VStr "p1";
                    "user_id" := VInt 1;
                    "amount" := VFloat (PyFloat.of_Z 100);
                    "currency" := VStr "USD";
                    "fee" := VFloat (PyFloat.of_Z 2);
                    "net_amount" := VFloat (PyFloat.of_Z 98) ]};
         errors := [] |}.
Proof.
  split.
  - refine (eq_trans
              (proj1 payment_success _ VNone (VStr "inv-3") (VInt 42)
                 (VFloat (PyFloat.of_decimal 625 4)) "Bhd"
                 (PyFloat.of_decimal 625 4) _ _ _ _ _ _ _ _ _ _ _)
              _); reflexivity.
  - exact (proj2 payment_success ascii_text_laws).
Defined.

Lemma stored_file_name_is_fixed_by_strip_witness :
  PyStr.strip py_isspace (PyStr.strip py_isspace " a b ")
  = PyStr.strip py_isspace " a b ".
Proof.
  apply (stored_file_name_is_fixed_by_strip
           (VDict (upload_of_name " a b ")) VNone
           (upload_ok " a b " (VInt 0) 0 "Logs" "x@y.z"));
    reflexivity.
Defined.
